(** * Task Cache Registry key plugin

    A shallow embedding of [plaso/parsers/winreg_plugins/task_scheduler.py]:
    the [TaskCacheEvent] class and the [TaskCachePlugin] methods
    [_GetIdValue] and [GetEntries], together with the parts of their
    environment they rely on (the [construct] structure declaration, the
    Registry key and value objects, the event sink and the logging channel). *)

From Stdlib Require Import ZArith List Lia.
From Stdlib Require Import Strings.Byte.
From stdpp Require Import base option list strings countable gmap.

Local Open Scope string_scope.
Local Open Scope list_scope.

(** ** Python values used as dictionary keys *)

(** The data of a Registry value is a native Python 2 object: a [unicode]
    string, a byte string ([str]), an integer, or the list of strings of a
    multi-string value. *)
Inductive PyObject :=
| PyUnicode (s : string)
| PyStr (b : list byte)
| PyInt (n : Z)
| PyList (l : list string).

#[global] Instance byte_eq_dec : EqDecision byte := Byte.byte_eq_dec.

#[global] Instance byte_countable : Countable byte :=
  inj_countable Byte.to_N Byte.of_N Byte.of_to_N.

#[global] Instance PyObject_eq_dec : EqDecision PyObject.
Proof. solve_decision. Defined.

Definition PyObject_to_sum (o : PyObject)
  : string + (list byte + (Z + list string)) :=
  match o with
  | PyUnicode s => inl s
  | PyStr b => inr (inl b)
  | PyInt n => inr (inr (inl n))
  | PyList l => inr (inr (inr l))
  end.

Definition PyObject_of_sum (x : string + (list byte + (Z + list string)))
  : PyObject :=
  match x with
  | inl s => PyUnicode s
  | inr (inl b) => PyStr b
  | inr (inr (inl n)) => PyInt n
  | inr (inr (inr l)) => PyList l
  end.

#[global] Instance PyObject_countable : Countable PyObject.
Proof.
  refine (inj_countable' PyObject_to_sum PyObject_of_sum _).
  intros []; reflexivity.
Defined.

(** A list is the one kind of object above that has no hash: using it as a
    dictionary key raises TypeError. *)
Definition hashable (o : PyObject) : bool :=
  match o with
  | PyList _ => false
  | _ => true
  end.

Definition is_ascii (b : list byte) : bool :=
  forallb (fun x => N.ltb (Byte.to_N x) 128) b.

(** In Python 2 a byte string made of ASCII characters only hashes and
    compares equal to the [unicode] string of the same characters, so both
    denote one dictionary key; every other pair of distinct objects of the
    kinds above denotes two keys. *)
Definition dict_key (o : PyObject) : PyObject :=
  match o with
  | PyStr b => if is_ascii b then PyUnicode (String.string_of_list_byte b) else o
  | _ => o
  end.

(** ** The [construct] declarations used by the plugin

    The library [construct] is imported by the plugin: [Struct] reads its
    members one after the other off the data, unsigned little-endian
    integers of 4 and 8 bytes and [Padding], whose bytes are read and
    dropped; bytes left over after the last member are ignored, and a
    member that finds too few bytes raises. *)

Module construct.

Inductive Construct :=
| ULInt32 (name : string)
| ULInt64 (name : string)
| Padding (length : nat).

Record Struct := mkStruct { struct_name : string; subcons : list Construct }.

Definition subcon_sizeof (c : Construct) : nat :=
  match c with
  | ULInt32 _ => 4
  | ULInt64 _ => 8
  | Padding n => n
  end.

Definition sizeof (s : Struct) : nat := list_sum (map subcon_sizeof (subcons s)).

(** The parsed object: attribute name to value. *)
Abbreviation Container := (gmap string Z).

(** Unsigned little-endian integer held by a byte sequence. *)
Fixpoint ULInt (bs : list byte) : Z :=
  match bs with
  | [] => 0
  | b :: bs' => Z.of_N (Byte.to_N b) + 256 * ULInt bs'
  end.

(** Reads [n] bytes off the stream; fails (FieldError) on a short read. *)
Definition _read_stream (stream : list byte) (n : nat)
  : option (list byte * list byte) :=
  if decide (n <= length stream)%nat
  then Some (firstn n stream, skipn n stream)
  else None.

Fixpoint parse_subcons (cs : list Construct) (stream : list byte)
    (obj : Container) : option Container :=
  match cs with
  | [] => Some obj
  | c :: cs' =>
      match _read_stream stream (subcon_sizeof c) with
      | None => None
      | Some (bs, rest) =>
          match c with
          | ULInt32 n | ULInt64 n => parse_subcons cs' rest (<[n := ULInt bs]> obj)
          | Padding _ => parse_subcons cs' rest obj
          end
      end
  end.

(** [Struct.parse]: [None] stands for the FieldError exception. *)
Definition parse (s : Struct) (data : list byte) : option Container :=
  parse_subcons (subcons s) data ∅.

End construct.

(** ** Registry keys and values *)

(** Modelled from the spec: the classes [WinRegKey] and [WinRegValue] of
    the Registry store are not part of the plugin. A value has a name, its
    raw bytes and its data as a Python object; a key has the attributes the
    plugin reads, its values and its sub keys in the order [GetSubkeys]
    gives them. A key or value object is always true in a condition;
    [None] is what a lookup returns when nothing is found. *)
Record WinRegValue := mkValue {
  value_name : string;
  raw_data : list byte;
  data : PyObject
}.

#[local] Unset Elimination Schemes.
#[warnings="-register-all"]
Inductive WinRegKey := mkKey {
  name : string;
  path : string;
  offset : Z;
  last_written_timestamp : Z;
  values : list WinRegValue;
  subkeys : list WinRegKey
}.
#[local] Set Elimination Schemes.

(** Induction over a key tree: the property holds of a key as soon as it
    holds of all its subkeys. *)
Definition WinRegKey_ind (P : WinRegKey -> Prop)
    (IH : forall n p o t vs ks, Forall P ks -> P (mkKey n p o t vs ks))
  : forall key, P key :=
  fix go (key : WinRegKey) : P key :=
    match key with
    | mkKey n p o t vs ks =>
        IH n p o t vs ks
          ((fix all (l : list WinRegKey) : Forall P l :=
              match l with
              | [] => @List.Forall_nil _ P
              | k :: l' => @List.Forall_cons _ P k l' (go k) (all l')
              end) ks)
    end.

(** Modelled from the spec: the Registry store interface
    ([GetSubkeys], [GetSubkey], [GetValue]) is not part of the plugin; a
    lookup by name returns the first entry of that name, or nothing. *)
Definition GetSubkeys (key : WinRegKey) : list WinRegKey := subkeys key.

Definition GetSubkey (key : WinRegKey) (n : string) : option WinRegKey :=
  find (fun k => String.eqb (name k) n) (subkeys key).

Definition GetValue (key : WinRegKey) (n : string) : option WinRegValue :=
  find (fun v => String.eqb (value_name v) n) (values key).

(** ** Events *)

(** Modelled from the spec: the event classes of [plaso.events]
    ([WindowsRegistryEvent], and [FiletimeEvent], the base class of
    [TaskCacheEvent]) are not part of the plugin. An event object is taken
    as the attributes its constructor is given: for the first the time, the
    key path, the dictionary of texts, the offset and the registry type;
    for a [TaskCacheEvent] the FILETIME value, its usage string, and the
    attributes [offset], [task_name] and [task_identifier] that
    [TaskCacheEvent.__init__] sets. *)
Inductive EventObject :=
| WindowsRegistryEvent (timestamp : Z) (key_name : string)
    (value_dict : gmap string string) (offset : Z)
    (registry_type : option string)
| mkTaskCacheEvent (timestamp : Z) (timestamp_description : string)
    (offset : Z) (task_name task_identifier : string).

Definition DATA_TYPE : string := "task_scheduler:task_cache:entry".

(** [TaskCacheEvent.__init__]: the offset is set to 0. *)
Definition TaskCacheEvent (timestamp : Z) (timestamp_description : string)
    (task_name task_identifier : string) : EventObject :=
  mkTaskCacheEvent timestamp timestamp_description 0 task_name task_identifier.

(** ** Effects: produced events, logged warnings, exceptions *)

(** Modelled from the spec: the event sink [parser_context.ProduceEvent]
    and the channel [logging.warning] are not part of the plugin; each
    keeps what it receives, in order. The exceptions are the one [construct]
    raises on a short read, the one of a missing attribute and the one of
    an unhashable dictionary key. *)

Inductive Exn := FieldError | AttributeError | TypeError.

Inductive Result (A : Type) :=
| Returned (a : A)
| Raised (e : Exn).
Arguments Returned {A} a.
Arguments Raised {A} e.

Record World := mkWorld {
  produced : list EventObject;
  logged : list string
}.

Definition M (A : Type) : Type := World -> Result A * World.

Definition ret {A} (a : A) : M A := fun w => (Returned a, w).

Definition bind {A B} (m : M A) (k : A -> M B) : M B :=
  fun w =>
    match m w with
    | (Returned a, w') => k a w'
    | (Raised e, w') => (Raised e, w')
    end.

Notation "x <- m ;; k" := (bind m (fun x => k))
  (at level 100, m at next level, right associativity).
Notation "m ;; k" := (bind m (fun _ => k))
  (at level 100, right associativity).

Definition raise {A} (e : Exn) : M A := fun w => (Raised e, w).

Definition ProduceEvent (event_object : EventObject) : M unit :=
  fun w => (Returned tt, mkWorld (produced w ++ [event_object]) (logged w)).

Definition logging_warning (msg : string) : M unit :=
  fun w => (Returned tt, mkWorld (produced w) (logged w ++ [msg])).

Definition or_raise {A} (e : Exn) (o : option A) : M A :=
  match o with
  | Some a => ret a
  | None => raise e
  end.

(** [for x in l: body(x)]; a [continue] is the body returning early. *)
Fixpoint for_each {A} (l : list A) (body : A -> M unit) : M unit :=
  match l with
  | [] => ret tt
  | x :: l' => body x ;; for_each l' body
  end.

(** A loop that updates a local variable of type [S]. *)
Fixpoint for_fold {A S} (l : list A) (body : S -> A -> M S) (s : S) : M S :=
  match l with
  | [] => ret s
  | x :: l' => s' <- body s x ;; for_fold l' body s'
  end.

Definition empty_world : World := mkWorld [] [].

(** ** The plugin *)

Module TaskCachePlugin.

Import construct.

Definition NAME : string := "winreg_task_cache".

Definition REG_TYPE : string := "SOFTWARE".

Definition REG_KEYS : list string :=
  ["\Microsoft\Windows NT\CurrentVersion\Schedule\TaskCache"].

Definition _DYNAMIC_INFO_STRUCT : Struct :=
  mkStruct "dynamic_info_record"
    [ULInt32 "version";
     ULInt64 "last_registered_time";
     ULInt64 "launch_time";
     Padding 8].

Definition _DYNAMIC_INFO_STRUCT_SIZE : nat := sizeof _DYNAMIC_INFO_STRUCT.

(** The generator [_GetIdValue], as the list of what it yields, in the
    order it yields it. (The interpreter's bound on the depth of recursion
    is not modelled.) *)
Fixpoint _GetIdValue (key : WinRegKey) : list (WinRegKey * WinRegValue) :=
  match GetValue key "Id" with
  | Some id_value => [(key, id_value)]
  | None => []
  end ++ flat_map _GetIdValue (GetSubkeys key).

(** Body of the inner loop of lines 111-119; the assignment of line 119
    raises TypeError when the data of the Id value has no hash. *)
Definition add_task_guid (task_guids : gmap PyObject string)
    (p : WinRegKey * WinRegValue) : M (gmap PyObject string) :=
  let '(value_key, id_value) := p in
  if decide (length (raw_data id_value) ≠ 78%nat) then
    logging_warning ("[" +:+ NAME +:+ "] unsupported Id value data size.") ;;
    ret task_guids
  else if hashable (data id_value) then
    ret (<[dict_key (data id_value) := name value_key]> task_guids)
  else
    raise TypeError.

(** Lines 110-119: the dictionary [task_guids]. *)
Definition build_task_guids (tree_key : WinRegKey) : M (gmap PyObject string) :=
  for_fold (GetSubkeys tree_key)
    (fun task_guids sub_key =>
       for_fold (_GetIdValue sub_key) add_task_guid task_guids)
    ∅.

(** Python truth value of an integer. *)
Definition truthy (n : Z) : bool := negb (Z.eqb n 0).

(** Lines 135-157 of the loop body: what is emitted for a task sub key once
    its DynamicInfo value has been parsed. *)
Definition emit_task_events (key : WinRegKey) (registry_type : option string)
    (task_guids : gmap PyObject string) (sub_key : WinRegKey)
    (dynamic_info : Container) : M unit :=
  let name' :=
    default (name sub_key)
            (task_guids !! dict_key (PyUnicode (name sub_key))) in
  let text_dict : gmap string string :=
    <["Task: " +:+ name' := "[ID: " +:+ name sub_key +:+ "]"]> ∅ in
  ProduceEvent
    (WindowsRegistryEvent (last_written_timestamp key) (path key)
       text_dict (offset key) registry_type) ;;
  last_registered_time <-
    or_raise AttributeError (dynamic_info !! "last_registered_time") ;;
  (if truthy last_registered_time then
     ProduceEvent
       (TaskCacheEvent last_registered_time "Last registered time"
          name' (name sub_key))
   else ret tt) ;;
  launch_time <-
    or_raise AttributeError (dynamic_info !! "launch_time") ;;
  (if truthy launch_time then
     ProduceEvent
       (TaskCacheEvent launch_time "Launch time" name' (name sub_key))
   else ret tt).

(** Body of the loop of lines 121-157; each [continue] ends the body. *)
Definition process_task (key : WinRegKey) (registry_type : option string)
    (task_guids : gmap PyObject string) (sub_key : WinRegKey) : M unit :=
  match GetValue sub_key "DynamicInfo" with
  | None => ret tt
  | Some dynamic_info_value =>
      if decide (length (raw_data dynamic_info_value) ≠ _DYNAMIC_INFO_STRUCT_SIZE)
      then
        logging_warning
          ("[" +:+ NAME +:+ "] unsupported DynamicInfo value data size.")
      else
        dynamic_info <-
          or_raise FieldError
            (parse _DYNAMIC_INFO_STRUCT (raw_data dynamic_info_value)) ;;
        emit_task_events key registry_type task_guids sub_key dynamic_info
  end.

Definition GetEntries (key : WinRegKey) (registry_type : option string)
  : M unit :=
  let tasks_key := GetSubkey key "Tasks" in
  let tree_key := GetSubkey key "Tree" in
  match tasks_key, tree_key with
  | Some tasks_key, Some tree_key =>
      task_guids <- build_task_guids tree_key ;;
      for_each (GetSubkeys tasks_key)
        (process_task key registry_type task_guids)
  | _, _ =>
      logging_warning "Task Cache is missing a Tasks or Tree sub key."
  end.

End TaskCachePlugin.

Import construct TaskCachePlugin.

(** ** Notions used to state the properties *)

(** The unsigned little-endian integer stored at [[off, off + len)]. *)
Definition field_at (off len : nat) (raw : list byte) : Z :=
  ULInt (firstn len (skipn off raw)).

(** The record laid out as version at [[0,4)], last registered time at
    [[4,12)], launch time at [[12,20)], the bytes at [[20,28)] left out. *)
Definition dynamic_info_record (raw : list byte) : Container :=
  <["launch_time" := field_at 12 8 raw]>
    (<["last_registered_time" := field_at 4 8 raw]>
       (<["version" := field_at 0 4 raw]> ∅)).

(** [descends_from root k]: [k] is [root] or lies at some depth below it. *)
Inductive descends_from : WinRegKey -> WinRegKey -> Prop :=
| descends_here root : descends_from root root
| descends_below root child k :
    In child (GetSubkeys root) ->
    descends_from child k ->
    descends_from root k.

(** The keys of a tree in depth-first order, a key before its children. *)
Fixpoint preorder (key : WinRegKey) : list WinRegKey :=
  key :: flat_map preorder (GetSubkeys key).

(** The pair a key contributes when it carries a value named Id. *)
Definition id_pair (key : WinRegKey) : option (WinRegKey * WinRegValue) :=
  match GetValue key "Id" with
  | Some id_value => Some (key, id_value)
  | None => None
  end.

(** The stream of pairs the first loop of [GetEntries] iterates over. *)
Definition id_pairs (tree_key : WinRegKey) : list (WinRegKey * WinRegValue) :=
  flat_map _GetIdValue (GetSubkeys tree_key).

(** A computation that returns [a] after appending [evs] to the produced
    events and [msgs] to the log, whatever the world it starts in. *)
Definition writes {A} (m : M A) (a : A) (evs : list EventObject)
    (msgs : list string) : Prop :=
  forall w, m w = (Returned a, mkWorld (produced w ++ evs) (logged w ++ msgs)).

(** The size policy of line 115. *)
Definition accepted (p : WinRegKey * WinRegValue) : Prop :=
  length (raw_data p.2) = 78%nat.

#[global] Instance accepted_dec p : Decision (accepted p).
Proof. unfold accepted. apply _. Defined.

(** The dictionary key an Id value is stored under (line 119). *)
Definition guid_key (p : WinRegKey * WinRegValue) : PyObject :=
  dict_key (data p.2).

Definition insert_guid (task_guids : gmap PyObject string)
    (p : WinRegKey * WinRegValue) : gmap PyObject string :=
  <[guid_key p := name p.1]> task_guids.

Definition step_guid (task_guids : gmap PyObject string)
    (p : WinRegKey * WinRegValue) : gmap PyObject string :=
  if decide (accepted p) then insert_guid task_guids p else task_guids.

Definition id_warning : string :=
  "[winreg_task_cache] unsupported Id value data size.".

Definition id_warnings (p : WinRegKey * WinRegValue) : list string :=
  if decide (accepted p) then [] else [id_warning].

(** An accepted Id value whose data cannot be a dictionary key: the pair
    at which the first loop raises. *)
Definition unhashable_id (p : WinRegKey * WinRegValue) : Prop :=
  accepted p /\ hashable (data p.2) = false.

#[global] Instance unhashable_id_dec p : Decision (unhashable_id p).
Proof. unfold unhashable_id. apply _. Defined.

(** The pairs of a stream that come before its first accepted Id value
    with unhashable data: all of them when there is none. *)
Fixpoint hashable_prefix (l : list (WinRegKey * WinRegValue))
  : list (WinRegKey * WinRegValue) :=
  match l with
  | [] => []
  | p :: l' => if decide (unhashable_id p) then [] else p :: hashable_prefix l'
  end.

(** The dictionary the first loop leaves behind when it completes. *)
Definition task_guids_of (tree_key : WinRegKey) : gmap PyObject string :=
  fold_left step_guid (id_pairs tree_key) ∅.

(** The name shown for a task sub key (line 135). *)
Definition resolved_name (task_guids : gmap PyObject string)
    (sub_key : WinRegKey) : string :=
  default (name sub_key) (task_guids !! dict_key (PyUnicode (name sub_key))).

(** The generic event of lines 137-143. *)
Definition key_visit_event (key : WinRegKey) (registry_type : option string)
    (task_guids : gmap PyObject string) (sub_key : WinRegKey) : EventObject :=
  WindowsRegistryEvent (last_written_timestamp key) (path key)
    (<["Task: " +:+ resolved_name task_guids sub_key
       := "[ID: " +:+ name sub_key +:+ "]"]> ∅)
    (offset key) registry_type.

(** The events of lines 145-157 for one timestamp field. *)
Definition time_events (label : string) (t : Z)
    (task_guids : gmap PyObject string) (sub_key : WinRegKey)
  : list EventObject :=
  if truthy t
  then [TaskCacheEvent t label (resolved_name task_guids sub_key) (name sub_key)]
  else [].

Definition decoded_events (key : WinRegKey) (registry_type : option string)
    (task_guids : gmap PyObject string) (sub_key : WinRegKey)
    (lrt lt : Z) : list EventObject :=
  key_visit_event key registry_type task_guids sub_key
    :: time_events "Last registered time" lrt task_guids sub_key
    ++ time_events "Launch time" lt task_guids sub_key.

Definition dynamic_info_warning : string :=
  "[winreg_task_cache] unsupported DynamicInfo value data size.".

(** What one run of the loop body adds to the produced events ... *)
Definition task_events (key : WinRegKey) (registry_type : option string)
    (task_guids : gmap PyObject string) (sub_key : WinRegKey)
  : list EventObject :=
  match GetValue sub_key "DynamicInfo" with
  | Some v =>
      if decide (length (raw_data v) = 28%nat)
      then decoded_events key registry_type task_guids sub_key
             (field_at 4 8 (raw_data v)) (field_at 12 8 (raw_data v))
      else []
  | None => []
  end.

(** ... and to the log. *)
Definition task_warnings (sub_key : WinRegKey) : list string :=
  match GetValue sub_key "DynamicInfo" with
  | Some v =>
      if decide (length (raw_data v) = 28%nat) then [] else [dynamic_info_warning]
  | None => []
  end.

(** A Task sub key with a DynamicInfo value of the supported size. *)
Definition has_dynamic_info (sub_key : WinRegKey) : Prop :=
  match GetValue sub_key "DynamicInfo" with
  | Some v => length (raw_data v) = 28%nat
  | None => False
  end.

#[global] Instance has_dynamic_info_dec sub_key : Decision (has_dynamic_info sub_key).
Proof. unfold has_dynamic_info. destruct (GetValue _ _); cbn; apply _. Defined.

(** The two kinds of event. *)
Definition is_key_visit (e : EventObject) : Prop :=
  match e with
  | WindowsRegistryEvent _ _ _ _ _ => True
  | mkTaskCacheEvent _ _ _ _ _ => False
  end.

#[global] Instance is_key_visit_dec e : Decision (is_key_visit e).
Proof. destruct e; cbn; apply _. Defined.

Definition is_timestamped (e : EventObject) : Prop :=
  match e with
  | WindowsRegistryEvent _ _ _ _ _ => False
  | mkTaskCacheEvent _ _ _ _ _ => True
  end.

#[global] Instance is_timestamped_dec e : Decision (is_timestamped e).
Proof. destruct e; cbn; apply _. Defined.

(** A timestamped event of a given usage string. *)
Definition labelled (label : string) (e : EventObject) : Prop :=
  match e with
  | WindowsRegistryEvent _ _ _ _ _ => False
  | mkTaskCacheEvent _ d _ _ _ => d = label
  end.

#[global] Instance labelled_dec label e : Decision (labelled label e).
Proof. destruct e; cbn; apply _. Defined.

(** The event shows the task under [task_name] with identifier [task_id]. *)
Definition displays (task_name task_id : string) (e : EventObject) : Prop :=
  match e with
  | WindowsRegistryEvent _ _ d _ _ =>
      d = <["Task: " +:+ task_name := "[ID: " +:+ task_id +:+ "]"]> ∅
  | mkTaskCacheEvent _ _ _ n i => n = task_name /\ i = task_id
  end.

(** Attributes of an event object; [None] when the object has no such
    attribute. *)
Definition event_timestamp (e : EventObject) : Z :=
  match e with
  | WindowsRegistryEvent t _ _ _ _ => t
  | mkTaskCacheEvent t _ _ _ _ => t
  end.

Definition event_offset (e : EventObject) : Z :=
  match e with
  | WindowsRegistryEvent _ _ _ o _ => o
  | mkTaskCacheEvent _ _ o _ _ => o
  end.

Definition event_key_name (e : EventObject) : option string :=
  match e with
  | WindowsRegistryEvent _ k _ _ _ => Some k
  | mkTaskCacheEvent _ _ _ _ _ => None
  end.

Definition event_registry_type (e : EventObject) : option (option string) :=
  match e with
  | WindowsRegistryEvent _ _ _ _ r => Some r
  | mkTaskCacheEvent _ _ _ _ _ => None
  end.

(** ** A sample Task Cache key *)

(** UTF-16 little-endian bytes of an ASCII string, with its end-of-string
    character. *)
Definition utf16le (s : string) : list byte :=
  flat_map (fun b => [b; Byte.x00]) (String.list_byte_of_string s)
    ++ [Byte.x00; Byte.x00].

Definition sample_guid : string := "{ABCDEF01-2345-6789-ABCD-EF0123456789}".

Definition sample_id_value : WinRegValue :=
  mkValue "Id" (utf16le sample_guid) (PyUnicode sample_guid).

Definition sample_short_id_value : WinRegValue :=
  mkValue "Id" (utf16le "{ABCD}") (PyUnicode "{ABCD}").

(** Version 3, then the two timestamps given by their lowest byte. *)
Definition sample_blob (lrt lt : byte) : list byte :=
  [Byte.x03; Byte.x00; Byte.x00; Byte.x00]
    ++ lrt :: repeat Byte.x00 7 ++ lt :: repeat Byte.x00 7
    ++ repeat Byte.x00 8.

Definition sample_dynamic_info : WinRegValue :=
  mkValue "DynamicInfo" (sample_blob Byte.x64 Byte.x00) (PyStr []).

Definition sample_long_dynamic_info : WinRegValue :=
  mkValue "DynamicInfo" (repeat Byte.x00 30) (PyStr []).

Definition sample_leaf (n : string) (vs : list WinRegValue) : WinRegKey :=
  mkKey n n 0 0 vs [].

Definition sample_task : WinRegKey := sample_leaf sample_guid [sample_dynamic_info].
Definition sample_task_no_info : WinRegKey := sample_leaf "{NO-INFO}" [].
Definition sample_task_long : WinRegKey :=
  sample_leaf "{LONG}" [sample_long_dynamic_info].

Definition sample_tree : WinRegKey :=
  mkKey "Tree" "Tree" 0 0 []
    [mkKey "Microsoft" "Microsoft" 0 0 []
       [sample_leaf "MyTask" [sample_id_value];
        sample_leaf "Broken" [sample_short_id_value]]].

Definition sample_tasks : WinRegKey :=
  mkKey "Tasks" "Tasks" 0 0 []
    [sample_task; sample_task_no_info; sample_task_long].

Definition sample_cache : WinRegKey :=
  mkKey "TaskCache"
    "\Microsoft\Windows NT\CurrentVersion\Schedule\TaskCache" 4096 777 []
    [sample_tasks; sample_tree].

(** A multi-string Id value of 78 bytes, and a Tree key where it comes
    before the short Id value. *)
Definition sample_list_id_value : WinRegValue :=
  mkValue "Id" (utf16le sample_guid) (PyList [sample_guid]).

Definition sample_list_tree : WinRegKey :=
  mkKey "Tree" "Tree" 0 0 []
    [mkKey "Microsoft" "Microsoft" 0 0 []
       [sample_leaf "Listed" [sample_list_id_value];
        sample_leaf "Broken" [sample_short_id_value]]].

Definition sample_list_cache : WinRegKey :=
  mkKey "TaskCache"
    "\Microsoft\Windows NT\CurrentVersion\Schedule\TaskCache" 4096 777 []
    [sample_tasks; sample_list_tree].

Definition sample_cache_without_tree : WinRegKey :=
  mkKey "TaskCache"
    "\Microsoft\Windows NT\CurrentVersion\Schedule\TaskCache" 4096 777 []
    [sample_tasks].

(** What the run over the sample key leaves in the sink and in the log. *)
Definition sample_output : World :=
  mkWorld
    [WindowsRegistryEvent 777
       "\Microsoft\Windows NT\CurrentVersion\Schedule\TaskCache"
       (<["Task: MyTask" := "[ID: {ABCDEF01-2345-6789-ABCD-EF0123456789}]"]> ∅)
       4096 (Some "SOFTWARE");
     TaskCacheEvent 100 "Last registered time" "MyTask" sample_guid]
    ["[winreg_task_cache] unsupported Id value data size.";
     "[winreg_task_cache] unsupported DynamicInfo value data size."].

(** A Task sub key whose DynamicInfo value has another size than 28. *)
Definition wrong_sized_dynamic_info (sub_key : WinRegKey) : Prop :=
  match GetValue sub_key "DynamicInfo" with
  | Some v => length (raw_data v) <> 28%nat
  | None => False
  end.

#[global] Instance wrong_sized_dynamic_info_dec sub_key :
  Decision (wrong_sized_dynamic_info sub_key).
Proof.
  unfold wrong_sized_dynamic_info. destruct (GetValue _ _); cbn; apply _.
Defined.

(** ** The effect layer *)

Example GetEntries_sample_cache :
  GetEntries sample_cache (Some REG_TYPE) empty_world
  = (Returned tt, sample_output).
Proof. reflexivity. Qed.

Example GetEntries_sample_list_cache :
  GetEntries sample_list_cache (Some REG_TYPE) empty_world
  = (Raised TypeError, empty_world).
Proof. reflexivity. Qed.

Lemma writes_ret {A} (a : A) : writes (ret a) a [] [].
Proof. intros [p l]. unfold ret. cbn. by rewrite !app_nil_r. Qed.

Lemma writes_bind {A B} (m : M A) (k : A -> M B) a b e1 l1 e2 l2 :
  writes m a e1 l1 -> writes (k a) b e2 l2 ->
  writes (bind m k) b (e1 ++ e2) (l1 ++ l2).
Proof.
  intros Hm Hk w. unfold bind. rewrite Hm, Hk. cbn.
  by rewrite !app_assoc.
Qed.

Lemma writes_ProduceEvent e : writes (ProduceEvent e) tt [e] [].
Proof. intros [p l]. unfold ProduceEvent. cbn. by rewrite app_nil_r. Qed.

Lemma writes_logging_warning msg : writes (logging_warning msg) tt [] [msg].
Proof. intros [p l]. unfold logging_warning. cbn. by rewrite app_nil_r. Qed.

Lemma writes_for_each {A} (l : list A) (body : A -> M unit) E L :
  (forall x, In x l -> writes (body x) tt (E x) (L x)) ->
  writes (for_each l body) tt (flat_map E l) (flat_map L l).
Proof.
  induction l as [|x l IH]; intros Hbody; cbn [for_each flat_map].
  - apply writes_ret.
  - apply writes_bind with (a := tt).
    + apply Hbody. by left.
    + apply IH. intros y Hy. apply Hbody. by right.
Qed.

(** ** The decoder *)

Lemma DYNAMIC_INFO_STRUCT_SIZE_28 : _DYNAMIC_INFO_STRUCT_SIZE = 28%nat.
Proof. reflexivity. Qed.

Lemma read_stream_enough stream n :
  (n <= length stream)%nat ->
  _read_stream stream n = Some (firstn n stream, skipn n stream).
Proof. intros H. unfold _read_stream. by rewrite decide_True. Qed.

Lemma read_stream_short stream n :
  (length stream < n)%nat -> _read_stream stream n = None.
Proof. intros H. unfold _read_stream. rewrite decide_False; [done | lia]. Qed.

(** Parsing succeeds exactly on the blobs that hold at least the 28 bytes
    of the structure, and then yields the record of the fixed layout. *)
Lemma parse_enough raw :
  (28 <= length raw)%nat ->
  parse _DYNAMIC_INFO_STRUCT raw = Some (dynamic_info_record raw).
Proof.
  intros H. unfold parse, _DYNAMIC_INFO_STRUCT. cbn [subcons parse_subcons subcon_sizeof].
  rewrite read_stream_enough by lia.
  rewrite read_stream_enough by (rewrite length_skipn; lia).
  rewrite skipn_skipn. cbn [Nat.add].
  rewrite read_stream_enough by (rewrite length_skipn; lia).
  rewrite skipn_skipn. cbn [Nat.add].
  rewrite read_stream_enough by (rewrite length_skipn; lia).
  reflexivity.
Qed.

Lemma parse_short raw :
  (length raw < 28)%nat -> parse _DYNAMIC_INFO_STRUCT raw = None.
Proof.
  intros H. unfold parse, _DYNAMIC_INFO_STRUCT. cbn [subcons parse_subcons subcon_sizeof].
  destruct (decide (length raw < 4)%nat).
  { by rewrite read_stream_short. }
  rewrite read_stream_enough by lia.
  destruct (decide (length raw < 12)%nat).
  { by rewrite read_stream_short by (rewrite length_skipn; lia). }
  rewrite read_stream_enough by (rewrite length_skipn; lia).
  rewrite skipn_skipn. cbn [Nat.add].
  destruct (decide (length raw < 20)%nat).
  { by rewrite read_stream_short by (rewrite length_skipn; lia). }
  rewrite read_stream_enough by (rewrite length_skipn; lia).
  rewrite skipn_skipn. cbn [Nat.add].
  by rewrite read_stream_short by (rewrite length_skipn; lia).
Qed.

(** ** The identifier resolver *)

Lemma GetIdValue_unfold key :
  _GetIdValue key
  = option_list (id_pair key) ++ flat_map _GetIdValue (GetSubkeys key).
Proof.
  destruct key as [n p o t vs ks]. cbn [_GetIdValue]. unfold id_pair.
  by destruct (GetValue _ "Id").
Qed.

Lemma omap_flat_map {A B C} (f : B -> option C) (g : A -> list B) (h : A -> list C) l :
  Forall (fun x => h x = omap f (g x)) l ->
  flat_map h l = omap f (flat_map g l).
Proof.
  induction 1 as [|x l Hx _ IH]; cbn [flat_map]; [done|].
  by rewrite omap_app, Hx, IH.
Qed.

Lemma GetIdValue_preorder key :
  _GetIdValue key = omap id_pair (preorder key).
Proof.
  induction key as [n p o t vs ks IH] using WinRegKey_ind.
  rewrite GetIdValue_unfold. cbn [preorder omap list_omap].
  rewrite (omap_flat_map id_pair preorder _GetIdValue) by exact IH.
  by destruct (id_pair _).
Qed.

Lemma preorder_descends root k :
  In k (preorder root) <-> descends_from root k.
Proof.
  split.
  - revert k. induction root as [n p o t vs ks IH] using WinRegKey_ind.
    intros k [<-|Hk]; [constructor|].
    apply in_flat_map in Hk as (child & Hchild & Hk).
    rewrite Forall_forall in IH.
    apply descends_below with child; [exact Hchild|].
    apply IH; [by apply list_elem_of_In | exact Hk].
  - induction 1 as [root|root child k Hchild _ IH].
    + destruct root; by left.
    + destruct root as [n p o t vs ks]. right.
      apply in_flat_map. by exists child.
Qed.

Lemma in_GetIdValue key k v :
  In (k, v) (_GetIdValue key)
  <-> descends_from key k /\ GetValue k "Id" = Some v.
Proof.
  rewrite GetIdValue_preorder, <- preorder_descends.
  rewrite <- !list_elem_of_In, list_elem_of_omap. unfold id_pair. split.
  - intros (k' & Hk' & Hpair).
    destruct (GetValue k' "Id") eqn:E; [|done].
    by injection Hpair as -> ->.
  - intros [Hk Hv]. exists k. by rewrite Hv.
Qed.

(** ** The identifier dictionary *)

Lemma add_task_guid_run task_guids p w :
  add_task_guid task_guids p w
  = (if decide (unhashable_id p) then Raised TypeError
     else Returned (step_guid task_guids p),
     mkWorld (produced w) (logged w ++ id_warnings p)).
Proof.
  destruct p as [value_key id_value], w as [evs msgs].
  unfold add_task_guid, step_guid, id_warnings.
  cbn [produced logged].
  destruct (decide (unhashable_id (value_key, id_value))) as [[Hacc Hh]|Hn].
  - rewrite !(decide_True (P := accepted (value_key, id_value))) by exact Hacc.
    unfold accepted in Hacc. cbn [snd] in Hacc, Hh.
    rewrite decide_False by (intros H; by apply H).
    rewrite Hh. unfold raise. by rewrite app_nil_r.
  - destruct (decide (accepted (value_key, id_value))) as [Hacc|Hacc];
      unfold accepted in Hacc; cbn [snd] in Hacc.
    + rewrite decide_False by (intros H; by apply H).
      destruct (hashable (data id_value)) eqn:Hh.
      * unfold ret, insert_guid, guid_key. cbn. by rewrite app_nil_r.
      * destruct Hn. by split.
    + rewrite decide_True by exact Hacc. reflexivity.
Qed.

Lemma hashable_prefix_all l :
  ~ Exists unhashable_id l -> hashable_prefix l = l.
Proof.
  induction l as [|p l IH]; intros H; cbn [hashable_prefix]; [done|].
  rewrite decide_False by (intros Hp; apply H; by left).
  rewrite IH; [done|]. intros Hl. apply H. by right.
Qed.

Lemma for_fold_add_task_guid l task_guids w :
  for_fold l add_task_guid task_guids w
  = (if decide (Exists unhashable_id l) then Raised TypeError
     else Returned (fold_left step_guid l task_guids),
     mkWorld (produced w)
       (logged w ++ flat_map id_warnings (hashable_prefix l))).
Proof.
  revert task_guids w. induction l as [|p l IH]; intros g w.
  - cbn [for_fold hashable_prefix flat_map fold_left].
    rewrite decide_False by (intros H; by apply Exists_nil in H).
    destruct w. unfold ret. cbn. by rewrite app_nil_r.
  - cbn [for_fold hashable_prefix fold_left]. unfold bind.
    rewrite add_task_guid_run.
    destruct (decide (unhashable_id p)) as [Hp|Hp].
    + rewrite decide_True by (by left). cbn [flat_map].
      unfold id_warnings. by rewrite decide_True by apply Hp.
    + rewrite IH. cbn [produced logged flat_map]. rewrite app_assoc.
      destruct (decide (Exists unhashable_id l)) as [Hl|Hl].
      * by rewrite decide_True by (by right).
      * rewrite decide_False; [done|].
        intros H. apply Exists_cons in H as [?|?]; done.
Qed.

Lemma for_fold_app {A S} (l1 l2 : list A) (body : S -> A -> M S) s w :
  for_fold (l1 ++ l2) body s w
  = bind (for_fold l1 body s) (for_fold l2 body) w.
Proof.
  revert s w. induction l1 as [|x l1 IH]; intros s w; [done|].
  cbn [app for_fold]. unfold bind.
  destruct (body s x w) as [[s'|e] w']; [|reflexivity].
  rewrite IH. reflexivity.
Qed.

Lemma for_fold_flat_map {A B S} (g : A -> list B) (body : S -> B -> M S) l s w :
  for_fold l (fun s x => for_fold (g x) body s) s w
  = for_fold (flat_map g l) body s w.
Proof.
  revert s w. induction l as [|x l IH]; intros s w; [done|].
  cbn [for_fold flat_map]. rewrite for_fold_app. unfold bind.
  destruct (for_fold (g x) body s w) as [[s'|e] w']; [|reflexivity].
  apply IH.
Qed.

Lemma build_task_guids_run tree_key w :
  build_task_guids tree_key w
  = (if decide (Exists unhashable_id (id_pairs tree_key))
     then Raised TypeError
     else Returned (task_guids_of tree_key),
     mkWorld (produced w)
       (logged w
          ++ flat_map id_warnings (hashable_prefix (id_pairs tree_key)))).
Proof.
  unfold build_task_guids, id_pairs.
  rewrite for_fold_flat_map. apply for_fold_add_task_guid.
Qed.

Lemma build_task_guids_writes tree_key :
  ~ Exists unhashable_id (id_pairs tree_key) ->
  writes (build_task_guids tree_key) (task_guids_of tree_key) []
    (flat_map id_warnings (id_pairs tree_key)).
Proof.
  intros H w. rewrite build_task_guids_run, decide_False by exact H.
  by rewrite hashable_prefix_all, app_nil_r by exact H.
Qed.

Lemma fold_step_guid_filter l task_guids :
  fold_left step_guid l task_guids
  = fold_left insert_guid (filter accepted l) task_guids.
Proof.
  revert task_guids. induction l as [|p l IH]; intros g; [done|].
  cbn [fold_left]. rewrite filter_cons. unfold step_guid at 2.
  destruct (decide (accepted p)); cbn [fold_left]; apply IH.
Qed.

Lemma fold_insert_guid_lookup l task_guids d :
  fold_left insert_guid l task_guids !! d
  = match last (filter (fun p => guid_key p = d) l) with
    | Some p => Some (name p.1)
    | None => task_guids !! d
    end.
Proof.
  revert task_guids. induction l as [|p l IH]; intros g; [done|].
  cbn [fold_left]. rewrite IH, filter_cons. unfold insert_guid at 1.
  destruct (decide (guid_key p = d)) as [<-|Hne].
  - rewrite last_cons, lookup_insert_eq. by destruct (last _).
  - by rewrite lookup_insert_ne.
Qed.

(** ** The loop over the task sub keys *)

Lemma writes_time_event label t task_guids sub_key :
  writes
    (if truthy t
     then ProduceEvent
            (TaskCacheEvent t label (resolved_name task_guids sub_key)
               (name sub_key))
     else ret tt)
    tt (time_events label t task_guids sub_key) [].
Proof.
  unfold time_events. destruct (truthy t).
  - apply writes_ProduceEvent.
  - apply writes_ret.
Qed.

Lemma emit_task_events_writes key registry_type task_guids sub_key r lrt lt :
  r !! "last_registered_time" = Some lrt ->
  r !! "launch_time" = Some lt ->
  writes (emit_task_events key registry_type task_guids sub_key r) tt
    (decoded_events key registry_type task_guids sub_key lrt lt) [].
Proof.
  intros Hlrt Hlt. unfold emit_task_events, decoded_events.
  rewrite Hlrt, Hlt. cbn [or_raise].
  fold (resolved_name task_guids sub_key).
  fold (key_visit_event key registry_type task_guids sub_key).
  change (key_visit_event key registry_type task_guids sub_key
            :: time_events "Last registered time" lrt task_guids sub_key
            ++ time_events "Launch time" lt task_guids sub_key)
    with ([key_visit_event key registry_type task_guids sub_key]
            ++ [] ++ time_events "Last registered time" lrt task_guids sub_key
            ++ [] ++ time_events "Launch time" lt task_guids sub_key).
  change (@nil string) with (@nil string ++ [] ++ [] ++ [] ++ []).
  eapply writes_bind; [apply writes_ProduceEvent|].
  eapply writes_bind; [apply writes_ret|].
  eapply writes_bind; [apply writes_time_event|].
  eapply writes_bind; [apply writes_ret|].
  apply writes_time_event.
Qed.

Lemma dynamic_info_record_lrt raw :
  dynamic_info_record raw !! "last_registered_time" = Some (field_at 4 8 raw).
Proof.
  unfold dynamic_info_record.
  rewrite lookup_insert_ne by done. by rewrite lookup_insert_eq.
Qed.

Lemma dynamic_info_record_lt raw :
  dynamic_info_record raw !! "launch_time" = Some (field_at 12 8 raw).
Proof. unfold dynamic_info_record. by rewrite lookup_insert_eq. Qed.

Lemma process_task_writes key registry_type task_guids sub_key :
  writes (process_task key registry_type task_guids sub_key) tt
    (task_events key registry_type task_guids sub_key)
    (task_warnings sub_key).
Proof.
  unfold process_task, task_events, task_warnings.
  destruct (GetValue sub_key "DynamicInfo") as [v|]; [|apply writes_ret].
  rewrite DYNAMIC_INFO_STRUCT_SIZE_28.
  destruct (decide (length (raw_data v) = 28%nat)) as [E|E].
  - rewrite decide_False by (intros H; by apply H).
    rewrite parse_enough by lia.
    change (decoded_events key registry_type task_guids sub_key
              (field_at 4 8 (raw_data v)) (field_at 12 8 (raw_data v)))
      with ([] ++ decoded_events key registry_type task_guids sub_key
              (field_at 4 8 (raw_data v)) (field_at 12 8 (raw_data v))).
    change (@nil string) with (@nil string ++ []).
    eapply writes_bind; [apply writes_ret|].
    apply emit_task_events_writes.
    + apply dynamic_info_record_lrt.
    + apply dynamic_info_record_lt.
  - rewrite decide_True by exact E. apply writes_logging_warning.
Qed.

Lemma GetEntries_writes key registry_type tasks_key tree_key :
  GetSubkey key "Tasks" = Some tasks_key ->
  GetSubkey key "Tree" = Some tree_key ->
  ~ Exists unhashable_id (id_pairs tree_key) ->
  writes (GetEntries key registry_type) tt
    (flat_map (task_events key registry_type (task_guids_of tree_key))
       (GetSubkeys tasks_key))
    (flat_map id_warnings (id_pairs tree_key)
       ++ flat_map task_warnings (GetSubkeys tasks_key)).
Proof.
  intros Htasks Htree Hok. unfold GetEntries. rewrite Htasks, Htree.
  match goal with
  | |- writes _ _ ?E _ => change E with ([] ++ E)
  end.
  eapply writes_bind; [by apply build_task_guids_writes|].
  apply writes_for_each. intros sub_key _. apply process_task_writes.
Qed.

Lemma GetEntries_raises key registry_type tasks_key tree_key w :
  GetSubkey key "Tasks" = Some tasks_key ->
  GetSubkey key "Tree" = Some tree_key ->
  Exists unhashable_id (id_pairs tree_key) ->
  GetEntries key registry_type w
  = (Raised TypeError,
     mkWorld (produced w)
       (logged w
          ++ flat_map id_warnings (hashable_prefix (id_pairs tree_key)))).
Proof.
  intros Htasks Htree Hraise. unfold GetEntries. rewrite Htasks, Htree.
  unfold bind. by rewrite build_task_guids_run, decide_True by exact Hraise.
Qed.

Lemma GetEntries_missing key registry_type :
  GetSubkey key "Tasks" = None \/ GetSubkey key "Tree" = None ->
  writes (GetEntries key registry_type) tt []
    ["Task Cache is missing a Tasks or Tree sub key."].
Proof.
  intros H. unfold GetEntries.
  destruct H as [-> | ->]; [|destruct (GetSubkey key "Tasks")];
    apply writes_logging_warning.
Qed.

Lemma process_task_returns key registry_type task_guids sub_key w :
  fst (process_task key registry_type task_guids sub_key w) = Returned tt.
Proof. by rewrite process_task_writes. Qed.

Lemma GetEntries_result key registry_type w :
  fst (GetEntries key registry_type w) = Returned tt
  \/ fst (GetEntries key registry_type w) = Raised TypeError.
Proof.
  destruct (GetSubkey key "Tasks") as [tasks_key|] eqn:Htasks.
  - destruct (GetSubkey key "Tree") as [tree_key|] eqn:Htree.
    + destruct (decide (Exists unhashable_id (id_pairs tree_key))) as [H|H].
      * right. by rewrite (GetEntries_raises _ _ _ _ _ Htasks Htree H).
      * left. by rewrite (GetEntries_writes _ _ _ _ Htasks Htree H).
    + left. by rewrite (GetEntries_missing key registry_type (or_intror Htree)).
  - left. by rewrite (GetEntries_missing key registry_type (or_introl Htasks)).
Qed.

Lemma emit_task_events_produces key registry_type task_guids sub_key r w :
  exists evs,
    produced (snd (emit_task_events key registry_type task_guids sub_key r w))
    = produced w
        ++ key_visit_event key registry_type task_guids sub_key :: evs.
Proof.
  unfold emit_task_events, bind, ProduceEvent, or_raise, raise, ret, TaskCacheEvent.
  fold (resolved_name task_guids sub_key).
  fold (key_visit_event key registry_type task_guids sub_key).
  cbn [fst snd produced logged].
  destruct (r !! "last_registered_time") as [lrt|]; cbn [produced];
    [|by exists []].
  destruct (truthy lrt); cbn [produced logged];
    (destruct (r !! "launch_time") as [lt|]; cbn [produced logged];
     [destruct (truthy lt); cbn [produced logged]|]);
    rewrite <- ?app_assoc; cbn [app]; eauto.
Qed.

(** ** The properties *)

(** C4. When the container key has no Tasks sub key or no Tree sub key,
    [GetEntries] produces no event, logs the single warning "Task Cache is
    missing a Tasks or Tree sub key." and returns normally. *)
Theorem missing_tasks_or_tree_only_warns key registry_type w :
  GetSubkey key "Tasks" = None \/ GetSubkey key "Tree" = None ->
  GetEntries key registry_type w
  = (Returned tt,
     mkWorld (produced w)
       (logged w ++ ["Task Cache is missing a Tasks or Tree sub key."])).
Proof.
  intros H. rewrite (GetEntries_missing key registry_type H).
  by rewrite app_nil_r.
Qed.

Lemma missing_tasks_or_tree_only_warns_witness :
  GetEntries sample_cache_without_tree (Some "SOFTWARE") empty_world
  = (Returned tt,
     mkWorld [] ["Task Cache is missing a Tasks or Tree sub key."]).
Proof.
  apply (missing_tasks_or_tree_only_warns sample_cache_without_tree
           (Some "SOFTWARE") empty_world).
  right. reflexivity.
Defined.

(** C9. [_GetIdValue] yields, for the keys of the tree taken depth first
    with a key before its children, the pair of each key that carries a
    value named Id and nothing else: a pair is yielded exactly when its key
    is the given key or lies at some depth below it and carries that value.
    The traversal is a function of the key alone and touches neither the
    events nor the log. *)
Theorem GetIdValue_yields_descendant_ids key :
  _GetIdValue key = omap id_pair (preorder key)
  /\ (forall k v,
        In (k, v) (_GetIdValue key)
        <-> descends_from key k /\ GetValue k "Id" = Some v).
Proof.
  split.
  - apply GetIdValue_preorder.
  - intros k v. apply in_GetIdValue.
Qed.

(** C10. A blob of the size of the structure always decodes: the parse
    returns the record with version read at [0,4), last registered time at
    [4,12) and launch time at [12,20), little-endian. Since the size check
    comes before every parse, the loop body, where the parse is, returns
    normally for every task sub key and every dictionary, and no run of
    [GetEntries] ends in the decoder's exception: a run returns normally or
    ends in the TypeError of the first loop. *)
Theorem sized_blob_always_decodes raw :
  length raw = _DYNAMIC_INFO_STRUCT_SIZE ->
  parse _DYNAMIC_INFO_STRUCT raw
  = Some (<["launch_time" := ULInt (firstn 8 (skipn 12 raw))]>
            (<["last_registered_time" := ULInt (firstn 8 (skipn 4 raw))]>
               (<["version" := ULInt (firstn 4 raw)]> ∅)))
  /\ (forall key registry_type task_guids sub_key w,
        fst (process_task key registry_type task_guids sub_key w)
        = Returned tt)
  /\ (forall key registry_type w,
        fst (GetEntries key registry_type w) = Returned tt
        \/ fst (GetEntries key registry_type w) = Raised TypeError).
Proof.
  rewrite DYNAMIC_INFO_STRUCT_SIZE_28. intros H. split; [|split].
  - rewrite parse_enough by lia. reflexivity.
  - apply process_task_returns.
  - apply GetEntries_result.
Qed.

Lemma sized_blob_always_decodes_witness :
  parse _DYNAMIC_INFO_STRUCT (sample_blob Byte.x64 Byte.x00)
  = Some (<["launch_time" := 0%Z]>
            (<["last_registered_time" := 100%Z]> (<["version" := 3%Z]> ∅)))
  /\ (forall key registry_type task_guids sub_key w,
        fst (process_task key registry_type task_guids sub_key w)
        = Returned tt)
  /\ (forall key registry_type w,
        fst (GetEntries key registry_type w) = Returned tt
        \/ fst (GetEntries key registry_type w) = Raised TypeError).
Proof.
  apply (sized_blob_always_decodes (sample_blob Byte.x64 Byte.x00)).
  reflexivity.
Defined.

(** C2. For a task sub key with a DynamicInfo value, the value is decoded,
    and the decoded record is what the rest of the loop body works on, if
    and only if the value holds exactly 28 bytes. On any other size the
    body only logs the warning "unsupported DynamicInfo value data size":
    nothing is parsed (no exception, also on a blob too short to parse), no
    event is produced, and the loop goes on with the remaining sub keys. *)
Theorem dynamic_info_decoded_iff_28_bytes key registry_type task_guids sub_key v :
  GetValue sub_key "DynamicInfo" = Some v ->
  ((exists r,
      parse _DYNAMIC_INFO_STRUCT (raw_data v) = Some r
      /\ forall w,
           process_task key registry_type task_guids sub_key w
           = emit_task_events key registry_type task_guids sub_key r w)
   <-> length (raw_data v) = 28%nat)
  /\ (length (raw_data v) <> 28%nat ->
      forall w,
        process_task key registry_type task_guids sub_key w
        = (Returned tt,
           mkWorld (produced w)
             (logged w
                ++ ["[winreg_task_cache] unsupported DynamicInfo value data size."]))
        /\ forall rest,
             for_each (sub_key :: rest)
               (process_task key registry_type task_guids) w
             = for_each rest (process_task key registry_type task_guids)
                 (mkWorld (produced w)
                    (logged w
                       ++ ["[winreg_task_cache] unsupported DynamicInfo value data size."]))).
Proof.
  intros Hv.
  assert (Hbad : length (raw_data v) <> 28%nat ->
            forall w,
              process_task key registry_type task_guids sub_key w
              = (Returned tt,
                 mkWorld (produced w) (logged w ++ [dynamic_info_warning]))).
  { intros Hlen w. rewrite process_task_writes.
    unfold task_events, task_warnings. rewrite Hv.
    rewrite !decide_False by exact Hlen.
    by rewrite app_nil_r. }
  split; [split|].
  - intros (r & _ & Hrun).
    destruct (decide (length (raw_data v) = 28%nat)) as [|Hlen]; [done|].
    exfalso.
    specialize (Hrun empty_world). rewrite (Hbad Hlen) in Hrun.
    destruct (emit_task_events_produces key registry_type task_guids sub_key
                r empty_world) as [evs Hevs].
    rewrite <- Hrun in Hevs. cbn in Hevs. discriminate Hevs.
  - intros Hlen. exists (dynamic_info_record (raw_data v)). split.
    + apply parse_enough. lia.
    + intros w. unfold process_task.
      rewrite Hv, DYNAMIC_INFO_STRUCT_SIZE_28.
      rewrite decide_False by (intros H; by apply H).
      by rewrite parse_enough by lia.
  - intros Hlen w. split; [exact (Hbad Hlen w)|].
    intros rest. cbn [for_each]. unfold bind at 1.
    by rewrite (Hbad Hlen w).
Qed.

Lemma dynamic_info_decoded_iff_28_bytes_witness :
  (exists r,
     parse _DYNAMIC_INFO_STRUCT (raw_data sample_dynamic_info) = Some r
     /\ forall w,
          process_task sample_cache (Some "SOFTWARE") ∅ sample_task w
          = emit_task_events sample_cache (Some "SOFTWARE") ∅ sample_task r w)
  /\ process_task sample_cache (Some "SOFTWARE") ∅ sample_task_long empty_world
     = (Returned tt,
        mkWorld []
          ["[winreg_task_cache] unsupported DynamicInfo value data size."]).
Proof.
  split.
  - apply (dynamic_info_decoded_iff_28_bytes sample_cache (Some "SOFTWARE") ∅
             sample_task sample_dynamic_info eq_refl).
    reflexivity.
  - apply (dynamic_info_decoded_iff_28_bytes sample_cache (Some "SOFTWARE") ∅
             sample_task_long sample_long_dynamic_info eq_refl).
    vm_compute. lia.
Defined.

Lemma parse_Some raw r :
  parse _DYNAMIC_INFO_STRUCT raw = Some r -> r = dynamic_info_record raw.
Proof.
  intros H. destruct (decide (28 <= length raw)%nat) as [Hlen|Hlen].
  - rewrite parse_enough in H by exact Hlen. by injection H.
  - rewrite parse_short in H by lia. discriminate H.
Qed.

Lemma filter_labelled_time_events label label' t task_guids sub_key :
  filter (labelled label) (time_events label' t task_guids sub_key)
  = if decide (label' = label)
    then time_events label' t task_guids sub_key
    else [].
Proof.
  unfold time_events, TaskCacheEvent. destruct (truthy t).
  - rewrite filter_cons. cbn [labelled].
    destruct (decide (label' = label)); reflexivity.
  - by destruct (decide (label' = label)).
Qed.

Lemma time_events_nonzero label t task_guids sub_key :
  time_events label t task_guids sub_key
  = if decide (t = 0%Z) then []
    else [TaskCacheEvent t label (resolved_name task_guids sub_key)
            (name sub_key)].
Proof.
  unfold time_events, truthy.
  destruct (Z.eqb_spec t 0); destruct (decide (t = 0%Z)); done.
Qed.

Lemma Forall_displays_time_events label t task_guids sub_key :
  Forall (displays (resolved_name task_guids sub_key) (name sub_key))
    (time_events label t task_guids sub_key).
Proof.
  unfold time_events, TaskCacheEvent. destruct (truthy t); repeat constructor.
Qed.

Lemma Forall_displays_decoded_events key registry_type task_guids sub_key lrt lt :
  Forall (displays (resolved_name task_guids sub_key) (name sub_key))
    (decoded_events key registry_type task_guids sub_key lrt lt).
Proof.
  unfold decoded_events. constructor; [reflexivity|].
  apply Forall_app; split; apply Forall_displays_time_events.
Qed.

(** C3. Once the record is decoded, the loop body produces a timestamped
    event with usage "Last registered time" exactly when the field
    last_registered_time is not zero, and one with usage "Launch time"
    exactly when launch_time is not zero; these are its only timestamped
    events, each holds the value of its field, and every event of the body
    shows the resolved task name and the task identifier. *)
Theorem timestamped_events_iff_nonzero key registry_type task_guids sub_key raw r :
  parse _DYNAMIC_INFO_STRUCT raw = Some r ->
  exists lrt lt evs,
    r !! "last_registered_time" = Some lrt
    /\ r !! "launch_time" = Some lt
    /\ (forall w,
          emit_task_events key registry_type task_guids sub_key r w
          = (Returned tt, mkWorld (produced w ++ evs) (logged w)))
    /\ filter (labelled "Last registered time") evs
       = (if decide (lrt = 0%Z) then []
          else [TaskCacheEvent lrt "Last registered time"
                  (resolved_name task_guids sub_key) (name sub_key)])
    /\ filter (labelled "Launch time") evs
       = (if decide (lt = 0%Z) then []
          else [TaskCacheEvent lt "Launch time"
                  (resolved_name task_guids sub_key) (name sub_key)])
    /\ filter is_timestamped evs
       = filter (labelled "Last registered time") evs
           ++ filter (labelled "Launch time") evs
    /\ Forall (displays (resolved_name task_guids sub_key) (name sub_key)) evs.
Proof.
  intros Hparse. apply parse_Some in Hparse as ->.
  exists (field_at 4 8 raw), (field_at 12 8 raw),
    (decoded_events key registry_type task_guids sub_key
       (field_at 4 8 raw) (field_at 12 8 raw)).
  split; [apply dynamic_info_record_lrt|].
  split; [apply dynamic_info_record_lt|].
  split.
  { intros w.
    rewrite (emit_task_events_writes key registry_type task_guids sub_key _ _ _
               (dynamic_info_record_lrt raw) (dynamic_info_record_lt raw)).
    by rewrite app_nil_r. }
  unfold decoded_events.
  rewrite !filter_cons, !filter_app, !filter_labelled_time_events.
  cbn [labelled is_timestamped].
  rewrite <- !time_events_nonzero.
  repeat split.
  - by rewrite app_nil_r.
  - rewrite !time_events_nonzero.
    destruct (decide (field_at 4 8 raw = 0%Z)), (decide (field_at 12 8 raw = 0%Z));
      reflexivity.
  - apply (Forall_displays_decoded_events key registry_type).
Qed.

Lemma timestamped_events_iff_nonzero_witness :
  exists evs,
    (forall w,
       emit_task_events sample_cache (Some "SOFTWARE")
         (task_guids_of sample_tree) sample_task
         (dynamic_info_record (raw_data sample_dynamic_info)) w
       = (Returned tt, mkWorld (produced w ++ evs) (logged w)))
    /\ filter (labelled "Last registered time") evs
       = [TaskCacheEvent 100 "Last registered time" "MyTask" sample_guid]
    /\ filter (labelled "Launch time") evs = [].
Proof.
  destruct (timestamped_events_iff_nonzero sample_cache (Some "SOFTWARE")
              (task_guids_of sample_tree) sample_task
              (raw_data sample_dynamic_info)
              (dynamic_info_record (raw_data sample_dynamic_info)) eq_refl)
    as (lrt & lt & evs & Hlrt & Hlt & Hrun & H1 & H2 & _).
  vm_compute in Hlrt. injection Hlrt as <-.
  vm_compute in Hlt. injection Hlt as <-.
  exists evs. split; [exact Hrun|]. split.
  - rewrite H1. reflexivity.
  - rewrite H2. reflexivity.
Defined.

Lemma Forall_displays_task_events key registry_type task_guids sub_key :
  Forall (displays (resolved_name task_guids sub_key) (name sub_key))
    (task_events key registry_type task_guids sub_key).
Proof.
  unfold task_events. destruct (GetValue sub_key "DynamicInfo") as [v|]; [|constructor].
  destruct (decide (length (raw_data v) = 28%nat)); [|constructor].
  apply Forall_displays_decoded_events.
Qed.

(** C6. Every event the loop body produces for a task sub key shows, as
    task name, the sub key's own name when that name is not a key of the
    dictionary, and the name stored in the dictionary when it is. *)
Theorem displayed_name_is_dictionary_entry_or_subkey_name
    key registry_type task_guids sub_key :
  exists evs msgs,
    (forall w,
       process_task key registry_type task_guids sub_key w
       = (Returned tt, mkWorld (produced w ++ evs) (logged w ++ msgs)))
    /\ (task_guids !! PyUnicode (name sub_key) = None ->
        Forall (displays (name sub_key) (name sub_key)) evs)
    /\ (forall n,
          task_guids !! PyUnicode (name sub_key) = Some n ->
          Forall (displays n (name sub_key)) evs).
Proof.
  exists (task_events key registry_type task_guids sub_key),
    (task_warnings sub_key).
  split; [apply process_task_writes|].
  pose proof (Forall_displays_task_events key registry_type task_guids sub_key)
    as H.
  unfold resolved_name in H. cbn [dict_key] in H.
  split.
  - intros Hnone. by rewrite Hnone in H.
  - intros n Hsome. by rewrite Hsome in H.
Qed.

(** ** Key-visit events *)

Lemma filter_key_visit_time_events label t task_guids sub_key :
  filter is_key_visit (time_events label t task_guids sub_key) = [].
Proof. unfold time_events. by destruct (truthy t). Qed.

Lemma filter_key_visit_task_events key registry_type task_guids sub_key :
  filter is_key_visit (task_events key registry_type task_guids sub_key)
  = if decide (has_dynamic_info sub_key)
    then [key_visit_event key registry_type task_guids sub_key]
    else [].
Proof.
  unfold task_events.
  destruct (decide (has_dynamic_info sub_key)) as [H|H];
    unfold has_dynamic_info in H;
    destruct (GetValue sub_key "DynamicInfo") as [v|]; try done.
  - rewrite decide_True by exact H. unfold decoded_events.
    rewrite filter_cons, filter_app, !filter_key_visit_time_events.
    reflexivity.
  - by rewrite decide_False by exact H.
Qed.

Lemma filter_flat_map {A B} (P : B -> Prop) `{!forall x, Decision (P x)}
    (f : A -> list B) l :
  filter P (flat_map f l) = flat_map (fun x => filter P (f x)) l.
Proof.
  induction l as [|x l IH]; cbn [flat_map]; [done|].
  by rewrite filter_app, IH.
Qed.

Lemma flat_map_if_singleton {A B} (Q : A -> Prop) `{!forall x, Decision (Q x)}
    (g : A -> B) l :
  flat_map (fun x => if decide (Q x) then [g x] else []) l
  = map g (filter Q l).
Proof.
  induction l as [|x l IH]; cbn [flat_map]; [done|].
  rewrite filter_cons, IH. by destruct (decide (Q x)).
Qed.

(** C1 (as the code has it). When the first loop completes, that is when
    no accepted Id value of the traversal has unhashable data, [GetEntries]
    produces one key-visit event for each sub key of Tasks that has a
    DynamicInfo value of exactly 28 bytes, in the order of the sub keys,
    and none for the other sub keys; the event holds the last written time,
    the path and the offset of the container key, the registry type and the
    pair that maps "Task: " and the resolved name to the identifier in
    "[ID: ...]". When the first loop raises, the run ends in TypeError
    before any sub key of Tasks is looked at and produces no event. *)
Theorem key_visit_event_per_decoded_task key registry_type tasks_key tree_key :
  GetSubkey key "Tasks" = Some tasks_key ->
  GetSubkey key "Tree" = Some tree_key ->
  exists result evs msgs,
    (forall w,
       GetEntries key registry_type w
       = (result, mkWorld (produced w ++ evs) (logged w ++ msgs)))
    /\ (~ Exists unhashable_id (id_pairs tree_key) ->
        result = Returned tt
        /\ filter is_key_visit evs
           = map
               (fun sub_key =>
                  WindowsRegistryEvent (last_written_timestamp key) (path key)
                    (<["Task: "
                         +:+ resolved_name (task_guids_of tree_key) sub_key
                       := "[ID: " +:+ name sub_key +:+ "]"]> ∅)
                    (offset key) registry_type)
               (filter has_dynamic_info (GetSubkeys tasks_key)))
    /\ (Exists unhashable_id (id_pairs tree_key) ->
        result = Raised TypeError /\ evs = []).
Proof.
  intros Htasks Htree.
  destruct (decide (Exists unhashable_id (id_pairs tree_key))) as [H|H].
  - eexists _, [], _. split.
    { intros w. rewrite (GetEntries_raises _ _ _ _ _ Htasks Htree H).
      by rewrite app_nil_r. }
    split; [by intros Hn|by intros _].
  - eexists _, _, _.
    split; [apply (GetEntries_writes _ _ _ _ Htasks Htree H)|].
    split; [|done]. intros _. split; [done|].
    rewrite filter_flat_map.
    rewrite <- (flat_map_if_singleton has_dynamic_info).
    apply flat_map_ext. intros sub_key.
    apply filter_key_visit_task_events.
Qed.

Lemma key_visit_event_per_decoded_task_witness :
  (exists evs msgs,
     (forall w,
        GetEntries sample_cache (Some "SOFTWARE") w
        = (Returned tt, mkWorld (produced w ++ evs) (logged w ++ msgs)))
     /\ filter is_key_visit evs
        = [WindowsRegistryEvent 777
             "\Microsoft\Windows NT\CurrentVersion\Schedule\TaskCache"
             (<["Task: MyTask" := "[ID: {ABCDEF01-2345-6789-ABCD-EF0123456789}]"]> ∅)
             4096 (Some "SOFTWARE")])
  /\ (exists msgs,
        forall w,
          GetEntries sample_list_cache (Some "SOFTWARE") w
          = (Raised TypeError, mkWorld (produced w ++ []) (logged w ++ msgs))).
Proof.
  split.
  - destruct (key_visit_event_per_decoded_task sample_cache (Some "SOFTWARE")
                sample_tasks sample_tree eq_refl eq_refl)
      as (result & evs & msgs & Hrun & Hok & _).
    destruct Hok as [-> Hfilter].
    { apply (bool_decide_eq_false_1 _). reflexivity. }
    exists evs, msgs. split; [exact Hrun|]. rewrite Hfilter. reflexivity.
  - destruct (key_visit_event_per_decoded_task sample_list_cache
                (Some "SOFTWARE") sample_tasks sample_list_tree
                eq_refl eq_refl)
      as (result & evs & msgs & Hrun & _ & Hraise).
    destruct Hraise as [-> ->].
    { apply (bool_decide_eq_true_1 _). reflexivity. }
    exists msgs. exact Hrun.
Defined.

(** C1 (as stated) fails: of the three sub keys of the sample Tasks key,
    the one without a DynamicInfo value and the one whose DynamicInfo value
    holds 30 bytes get no key-visit event. *)
Lemma no_key_visit_event_without_decoded_dynamic_info :
  GetSubkeys sample_tasks
  = [sample_task; sample_task_no_info; sample_task_long]
  /\ GetValue sample_task_no_info "DynamicInfo" = None
  /\ process_task sample_cache (Some "SOFTWARE") (task_guids_of sample_tree)
       sample_task_no_info empty_world
     = (Returned tt, mkWorld [] [])
  /\ (length (raw_data sample_long_dynamic_info) = 30)%nat
  /\ process_task sample_cache (Some "SOFTWARE") (task_guids_of sample_tree)
       sample_task_long empty_world
     = (Returned tt,
        mkWorld []
          ["[winreg_task_cache] unsupported DynamicInfo value data size."])
  /\ filter is_key_visit
       (produced (snd (GetEntries sample_cache (Some "SOFTWARE") empty_world)))
     = [WindowsRegistryEvent 777
          "\Microsoft\Windows NT\CurrentVersion\Schedule\TaskCache"
          (<["Task: MyTask" := "[ID: {ABCDEF01-2345-6789-ABCD-EF0123456789}]"]> ∅)
          4096 (Some "SOFTWARE")].
Proof. repeat split. Qed.

(** ** The dictionary of task names *)

Lemma id_warnings_rejected l :
  flat_map id_warnings l
  = map (fun _ => id_warning) (filter (fun p => ~ accepted p) l).
Proof.
  induction l as [|p l IH]; cbn [flat_map]; [done|].
  rewrite filter_cons, IH. unfold id_warnings.
  destruct (decide (accepted p)) as [Hp|Hp].
  - rewrite decide_False by (intros H; by apply H). reflexivity.
  - rewrite decide_True by exact Hp. reflexivity.
Qed.

Lemma task_guids_of_lookup tree_key d :
  task_guids_of tree_key !! d
  = (fun p => name p.1)
      <$> last (filter (fun p => guid_key p = d /\ accepted p)
                  (id_pairs tree_key)).
Proof.
  unfold task_guids_of.
  rewrite fold_step_guid_filter, fold_insert_guid_lookup, list_filter_filter.
  rewrite lookup_empty. by destruct (last _).
Qed.

(** C5 (as the code has it). The dictionary built by the first loop is
    keyed by the data of the accepted Id values (the decoded value, not
    its raw bytes) and maps it to the name of the key that holds the value;
    under each key it holds the name given by the last accepted pair of the
    traversal with that data. The loop builds it unless an accepted Id
    value has unhashable data, in which case the loop raises TypeError. *)
Theorem task_guids_keyed_by_value_data tree_key :
  (Exists unhashable_id (id_pairs tree_key)
   /\ forall w, fst (build_task_guids tree_key w) = Raised TypeError)
  \/ (~ Exists unhashable_id (id_pairs tree_key)
      /\ exists task_guids,
           (forall w, fst (build_task_guids tree_key w) = Returned task_guids)
           /\ forall d,
                task_guids !! d
                = (fun p => name p.1)
                    <$> last (filter
                                (fun p => dict_key (data p.2) = d
                                          /\ length (raw_data p.2) = 78%nat)
                                (id_pairs tree_key))).
Proof.
  destruct (decide (Exists unhashable_id (id_pairs tree_key))) as [H|H].
  - left. split; [exact H|]. intros w.
    by rewrite build_task_guids_run, decide_True by exact H.
  - right. split; [exact H|]. exists (task_guids_of tree_key). split.
    + intros w. by rewrite build_task_guids_run, decide_False by exact H.
    + intros d. apply task_guids_of_lookup.
Qed.

(** C5 (as stated) fails: the accepted Id value of the sample tree is found
    under its data, the text of the GUID, and not under its 78 raw bytes. *)
Lemma task_guids_not_keyed_by_raw_bytes :
  id_pairs sample_tree
  = [(sample_leaf "MyTask" [sample_id_value], sample_id_value);
     (sample_leaf "Broken" [sample_short_id_value], sample_short_id_value)]
  /\ length (raw_data sample_id_value) = 78%nat
  /\ exists task_guids,
       fst (build_task_guids sample_tree empty_world) = Returned task_guids
       /\ task_guids !! dict_key (PyStr (raw_data sample_id_value)) = None
       /\ task_guids !! dict_key (data sample_id_value) = Some "MyTask".
Proof.
  split; [reflexivity|]. split; [reflexivity|].
  exists (task_guids_of sample_tree). repeat split.
Qed.

Lemma hashable_prefix_split l :
  Exists unhashable_id l ->
  exists p rest, l = hashable_prefix l ++ p :: rest /\ unhashable_id p.
Proof.
  induction l as [|q l IH]; intros H; [by apply Exists_nil in H|].
  cbn [hashable_prefix].
  destruct (decide (unhashable_id q)) as [Hq|Hq].
  - by exists q, l.
  - apply Exists_cons in H as [?|Hl]; [done|].
    destruct (IH Hl) as (p & rest & Heq & Hp).
    exists p, rest. split; [|exact Hp]. cbn [app]. by rewrite <- Heq.
Qed.

(** C7. The first loop goes through the Id values of the traversal up to
    the first accepted one with unhashable data, if there is one. For each
    value it goes through whose raw data is not 78 bytes long it logs one
    "unsupported Id value data size" warning and goes on; it produces no
    event. When it completes, the dictionary it returns is the one built
    from the accepted pairs alone, so each of its entries comes from a pair
    of the traversal whose Id value has 78 bytes of raw data. When it stops
    at a value of 78 bytes with unhashable data it raises TypeError and
    there is no dictionary. *)
Theorem only_78_byte_ids_enter_task_guids tree_key :
  exists result,
    (forall w,
       build_task_guids tree_key w
       = (result,
          mkWorld (produced w)
            (logged w
               ++ map (fun _ => "[winreg_task_cache] unsupported Id value data size.")
                    (filter (fun p => length (raw_data p.2) <> 78%nat)
                       (hashable_prefix (id_pairs tree_key))))))
    /\ (~ Exists unhashable_id (id_pairs tree_key) ->
        hashable_prefix (id_pairs tree_key) = id_pairs tree_key
        /\ exists task_guids,
             result = Returned task_guids
             /\ task_guids
                = fold_left
                    (fun task_guids p =>
                       <[dict_key (data p.2) := name p.1]> task_guids)
                    (filter (fun p => length (raw_data p.2) = 78%nat)
                       (id_pairs tree_key))
                    ∅
             /\ forall d n,
                  task_guids !! d = Some n ->
                  exists value_key id_value,
                    In (value_key, id_value) (id_pairs tree_key)
                    /\ length (raw_data id_value) = 78%nat
                    /\ dict_key (data id_value) = d
                    /\ name value_key = n)
    /\ (Exists unhashable_id (id_pairs tree_key) ->
        result = Raised TypeError
        /\ exists p rest,
             id_pairs tree_key
             = hashable_prefix (id_pairs tree_key) ++ p :: rest
             /\ length (raw_data p.2) = 78%nat
             /\ hashable (data p.2) = false).
Proof.
  eexists. split; [|split].
  - intros w. rewrite build_task_guids_run, id_warnings_rejected. reflexivity.
  - intros H. rewrite decide_False by exact H.
    split; [by apply hashable_prefix_all|].
    exists (task_guids_of tree_key). split; [done|]. split.
    + unfold task_guids_of. apply fold_step_guid_filter.
    + intros d n. rewrite task_guids_of_lookup.
      destruct (last _) as [[value_key id_value]|] eqn:Hlast; [|done].
      intros [= <-]. apply last_Some_elem_of in Hlast.
      apply list_elem_of_filter in Hlast as [[Hkey Hacc] Hin].
      exists value_key, id_value. by rewrite <- list_elem_of_In.
  - intros H. rewrite decide_True by exact H. split; [done|].
    destruct (hashable_prefix_split _ H) as (p & rest & Heq & Hacc & Hh).
    by exists p, rest.
Qed.

(** ** What the events carry *)

Lemma ULInt_bound bs : (0 <= ULInt bs < 256 ^ Z.of_nat (length bs))%Z.
Proof.
  induction bs as [|b bs IH]; cbn [ULInt length]; [lia|].
  pose proof (Byte.to_N_bounded b) as Hb.
  rewrite Nat2Z.inj_succ, Z.pow_succ_r by lia. lia.
Qed.

Lemma field_at_8_bound off raw : (0 <= field_at off 8 raw < 2 ^ 64)%Z.
Proof.
  unfold field_at.
  pose proof (ULInt_bound (firstn 8 (skipn off raw))) as H.
  pose proof (firstn_le_length 8 (skipn off raw)) as Hlen.
  assert (256 ^ Z.of_nat (length (firstn 8 (skipn off raw))) <= 256 ^ 8)%Z.
  { apply Z.pow_le_mono_r; lia. }
  change (2 ^ 64)%Z with (256 ^ 8)%Z. lia.
Qed.

Lemma in_time_events label t task_guids sub_key e :
  In e (time_events label t task_guids sub_key) ->
  e = TaskCacheEvent t label (resolved_name task_guids sub_key) (name sub_key)
  /\ t <> 0%Z.
Proof.
  unfold time_events, truthy. destruct (Z.eqb_spec t 0) as [|Hne]; cbn.
  - intros [].
  - intros [<-|[]]. by split.
Qed.

Lemma in_task_events key registry_type task_guids sub_key e :
  In e (task_events key registry_type task_guids sub_key) ->
  e = key_visit_event key registry_type task_guids sub_key
  \/ exists label t,
       (label = "Last registered time" \/ label = "Launch time")
       /\ (0 < t < 2 ^ 64)%Z
       /\ e = TaskCacheEvent t label (resolved_name task_guids sub_key)
                (name sub_key).
Proof.
  unfold task_events.
  destruct (GetValue sub_key "DynamicInfo") as [v|]; [|intros []].
  destruct (decide (length (raw_data v) = 28%nat)); [|intros []].
  unfold decoded_events. intros [<-|He]; [by left|]. right.
  apply in_app_or in He as [He|He]; apply in_time_events in He as [-> Hne].
  - exists "Last registered time", (field_at 4 8 (raw_data v)).
    pose proof (field_at_8_bound 4 (raw_data v)). repeat split; auto; lia.
  - exists "Launch time", (field_at 12 8 (raw_data v)).
    pose proof (field_at_8_bound 12 (raw_data v)). repeat split; auto; lia.
Qed.

(** C8 (as the code has it). Every timestamped event [GetEntries] hands to
    the sink holds a timestamp of 64 bits that is not zero, its usage
    string, the resolved task name and the task identifier, and an offset
    that is always 0; it holds neither a key path nor a registry type.
    The path and the offset of the container key and the registry type are
    held by the key-visit events only. This holds of every run, whether it
    returns normally or ends in the TypeError of the first loop. *)
Theorem timestamped_events_hold_no_provenance key registry_type :
  exists result evs msgs,
    (forall w,
       GetEntries key registry_type w
       = (result, mkWorld (produced w ++ evs) (logged w ++ msgs)))
    /\ (result = Returned tt \/ result = Raised TypeError)
    /\ Forall
         (fun e =>
            (is_timestamped e ->
             (0 < event_timestamp e < 2 ^ 64)%Z
             /\ event_offset e = 0%Z
             /\ event_key_name e = None
             /\ event_registry_type e = None
             /\ exists label tasks_key tree_key sub_key,
                  (label = "Last registered time" \/ label = "Launch time")
                  /\ GetSubkey key "Tasks" = Some tasks_key
                  /\ GetSubkey key "Tree" = Some tree_key
                  /\ In sub_key (GetSubkeys tasks_key)
                  /\ e = TaskCacheEvent (event_timestamp e) label
                           (resolved_name (task_guids_of tree_key) sub_key)
                           (name sub_key))
            /\ (is_key_visit e ->
                event_timestamp e = last_written_timestamp key
                /\ event_key_name e = Some (path key)
                /\ event_offset e = offset key
                /\ event_registry_type e = Some registry_type))
         evs.
Proof.
  destruct (GetSubkey key "Tasks") as [tasks_key|] eqn:Htasks;
    [destruct (GetSubkey key "Tree") as [tree_key|] eqn:Htree;
     [destruct (decide (Exists unhashable_id (id_pairs tree_key))) as [H|H]|]|].
  - eexists _, [], _. split.
    { intros w. rewrite (GetEntries_raises _ _ _ _ _ Htasks Htree H).
      by rewrite app_nil_r. }
    split; [by right|constructor].
  - eexists _, _, _.
    split; [apply (GetEntries_writes _ _ _ _ Htasks Htree H)|].
    split; [by left|].
    apply Forall_flat_map, Forall_forall. intros sub_key Hsub.
    apply Forall_forall. intros e He.
    apply list_elem_of_In in Hsub, He.
    apply in_task_events in He as [->|(label & t & Hlabel & Ht & ->)].
    + split; [intros []|]. by intros _.
    + split; [|intros []]. intros _. cbn.
      repeat split; try lia.
      exists label, tasks_key, tree_key, sub_key. by repeat split.
  - eexists _, [], _.
    split; [apply (GetEntries_missing key registry_type (or_intror Htree))|].
    split; [by left|constructor].
  - eexists _, [], _.
    split; [apply (GetEntries_missing key registry_type (or_introl Htasks))|].
    split; [by left|constructor].
Qed.

(** C8 (as stated) fails: the timestamped event produced for the sample
    key, whose offset is 4096, holds the offset 0, no key path and no
    registry type. *)
Lemma timestamped_event_without_provenance :
  exists e,
    In e (produced (snd (GetEntries sample_cache (Some "SOFTWARE") empty_world)))
    /\ e = mkTaskCacheEvent 100 "Last registered time" 0 "MyTask" sample_guid
    /\ is_timestamped e
    /\ offset sample_cache = 4096%Z
    /\ event_offset e = 0%Z
    /\ event_key_name e = None
    /\ event_registry_type e = None.
Proof.
  exists (mkTaskCacheEvent 100 "Last registered time" 0 "MyTask" sample_guid).
  split; [right; left; reflexivity|]. repeat split.
Qed.

(** ** More on the decoder *)

Lemma firstn_plus {A} (n m : nat) (l : list A) :
  firstn (n + m) l = firstn n l ++ firstn m (skipn n l).
Proof.
  revert l. induction n as [|n IH]; intros l; [done|].
  destruct l as [|x l]; cbn [Nat.add firstn skipn app].
  - by rewrite firstn_nil.
  - by rewrite IH.
Qed.

Lemma field_at_bound off len raw :
  (0 <= field_at off len raw < 256 ^ Z.of_nat len)%Z.
Proof.
  unfold field_at.
  pose proof (ULInt_bound (firstn len (skipn off raw))) as H.
  pose proof (firstn_le_length len (skipn off raw)) as Hlen.
  assert (256 ^ Z.of_nat (length (firstn len (skipn off raw)))
          <= 256 ^ Z.of_nat len)%Z.
  { apply Z.pow_le_mono_r; lia. }
  lia.
Qed.

Lemma field_at_firstn n off len raw :
  (off + len <= n)%nat ->
  field_at off len (firstn n raw) = field_at off len raw.
Proof.
  intros H. unfold field_at.
  rewrite skipn_firstn_comm, firstn_firstn. f_equal. f_equal. lia.
Qed.

Lemma dynamic_info_record_firstn n raw :
  (20 <= n)%nat ->
  dynamic_info_record (firstn n raw) = dynamic_info_record raw.
Proof.
  intros H. unfold dynamic_info_record.
  by rewrite !field_at_firstn by lia.
Qed.

Lemma to_N_inj a b : Byte.to_N a = Byte.to_N b -> a = b.
Proof.
  intros H. pose proof (Byte.of_to_N a) as Ha. rewrite H, Byte.of_to_N in Ha.
  by injection Ha.
Qed.

Lemma ULInt_inj bs1 bs2 :
  length bs1 = length bs2 -> ULInt bs1 = ULInt bs2 -> bs1 = bs2.
Proof.
  revert bs2. induction bs1 as [|a bs1 IH]; intros [|b bs2] Hlen Heq;
    try discriminate Hlen; [done|].
  cbn [ULInt] in Heq.
  pose proof (Byte.to_N_bounded a). pose proof (Byte.to_N_bounded b).
  assert (Byte.to_N a = Byte.to_N b) as Hab by lia.
  f_equal.
  - by apply to_N_inj.
  - apply IH; [by injection Hlen|]. rewrite Hab in Heq. lia.
Qed.

Lemma ULInt_zeros n : ULInt (repeat Byte.x00 n) = 0%Z.
Proof. induction n as [|n IH]; cbn [repeat ULInt]; [done|]. rewrite IH. done. Qed.

Lemma field_at_zero off len raw :
  (off + len <= length raw)%nat ->
  field_at off len raw = 0%Z
  <-> firstn len (skipn off raw) = repeat Byte.x00 len.
Proof.
  intros H. unfold field_at. split.
  - intros Hz. apply ULInt_inj.
    + rewrite length_firstn, length_skipn, repeat_length. lia.
    + by rewrite ULInt_zeros.
  - intros ->. apply ULInt_zeros.
Qed.

(** X1. The record parsed from a blob holds the three attributes version,
    last_registered_time and launch_time and no other; the version is an
    unsigned number of 32 bits and both times are unsigned numbers of 64
    bits. *)
Theorem decoded_fields_in_range raw r :
  parse _DYNAMIC_INFO_STRUCT raw = Some r ->
  dom r = ({["version"; "last_registered_time"; "launch_time"]} : gset string)
  /\ exists version lrt lt,
       r !! "version" = Some version
       /\ r !! "last_registered_time" = Some lrt
       /\ r !! "launch_time" = Some lt
       /\ (0 <= version < 2 ^ 32)%Z
       /\ (0 <= lrt < 2 ^ 64)%Z
       /\ (0 <= lt < 2 ^ 64)%Z.
Proof.
  intros H. apply parse_Some in H as ->. split.
  - unfold dynamic_info_record. rewrite !dom_insert_L, dom_empty_L. set_solver.
  - exists (field_at 0 4 raw), (field_at 4 8 raw), (field_at 12 8 raw).
    split; [|split; [apply dynamic_info_record_lrt|
                     split; [apply dynamic_info_record_lt|]]].
    + unfold dynamic_info_record.
      rewrite !lookup_insert_ne by done. by rewrite lookup_insert_eq.
    + pose proof (field_at_bound 0 4 raw).
      pose proof (field_at_bound 4 8 raw).
      pose proof (field_at_bound 12 8 raw).
      change (256 ^ Z.of_nat 4)%Z with (2 ^ 32)%Z in *.
      change (256 ^ Z.of_nat 8)%Z with (2 ^ 64)%Z in *.
      auto.
Qed.

Lemma decoded_fields_in_range_witness :
  exists version lrt lt,
    dynamic_info_record (sample_blob Byte.x64 Byte.x00) !! "version"
    = Some version
    /\ dynamic_info_record (sample_blob Byte.x64 Byte.x00)
         !! "last_registered_time" = Some lrt
    /\ dynamic_info_record (sample_blob Byte.x64 Byte.x00) !! "launch_time"
       = Some lt
    /\ (0 <= version < 2 ^ 32)%Z
    /\ (0 <= lrt < 2 ^ 64)%Z
    /\ (0 <= lt < 2 ^ 64)%Z.
Proof.
  apply (decoded_fields_in_range (sample_blob Byte.x64 Byte.x00)).
  reflexivity.
Defined.

(** X2. The structure parses a blob exactly when the blob holds at least
    as many bytes as the structure's size, and what it parses from a longer
    blob is what it parses from the first 28 bytes: the bytes after them
    are ignored, so it is the size test of [GetEntries] alone that turns
    longer blobs away. *)
Theorem parse_needs_structure_size raw :
  (is_Some (parse _DYNAMIC_INFO_STRUCT raw)
   <-> (_DYNAMIC_INFO_STRUCT_SIZE <= length raw)%nat)
  /\ ((_DYNAMIC_INFO_STRUCT_SIZE <= length raw)%nat ->
      parse _DYNAMIC_INFO_STRUCT raw
      = parse _DYNAMIC_INFO_STRUCT (firstn _DYNAMIC_INFO_STRUCT_SIZE raw)).
Proof.
  rewrite DYNAMIC_INFO_STRUCT_SIZE_28. split; [split|].
  - intros [r Hr]. destruct (decide (28 <= length raw)%nat); [done|].
    rewrite parse_short in Hr by lia. discriminate Hr.
  - intros H. rewrite parse_enough by exact H. by eexists.
  - intros H. rewrite parse_enough by exact H.
    rewrite parse_enough by (rewrite length_firstn; lia).
    by rewrite dynamic_info_record_firstn by lia.
Qed.

(** X3. Two blobs of at least 28 bytes parse to the same record exactly
    when their first 20 bytes are the same: the record keeps all of the
    version and of the two times, and nothing of the 8 bytes that follow. *)
Theorem record_determined_by_first_20_bytes raw1 raw2 :
  (28 <= length raw1)%nat ->
  (28 <= length raw2)%nat ->
  parse _DYNAMIC_INFO_STRUCT raw1 = parse _DYNAMIC_INFO_STRUCT raw2
  <-> firstn 20 raw1 = firstn 20 raw2.
Proof.
  intros H1 H2. rewrite !parse_enough by assumption. split.
  - intros Heq. apply (inj Some) in Heq.
    assert (forall a, dynamic_info_record raw1 !! a
                      = dynamic_info_record raw2 !! a) as Hlook
      by (intros a; by rewrite Heq).
    pose proof (Hlook "version") as Hv.
    pose proof (Hlook "last_registered_time") as Hlrt.
    pose proof (Hlook "launch_time") as Hlt.
    rewrite !dynamic_info_record_lrt in Hlrt.
    rewrite !dynamic_info_record_lt in Hlt.
    unfold dynamic_info_record in Hv.
    rewrite !(lookup_insert_ne _ _ "version") in Hv by done.
    rewrite !lookup_insert_eq in Hv.
    injection Hv as Hv. injection Hlrt as Hlrt. injection Hlt as Hlt.
    unfold field_at in Hv, Hlrt, Hlt. rewrite !skipn_O in Hv.
    apply ULInt_inj in Hv;
      [|rewrite !length_firstn; lia].
    apply ULInt_inj in Hlrt;
      [|rewrite !length_firstn, !length_skipn; lia].
    apply ULInt_inj in Hlt;
      [|rewrite !length_firstn, !length_skipn; lia].
    change 20%nat with (4 + (8 + 8))%nat.
    rewrite !(firstn_plus 4), !(firstn_plus 8), !skipn_skipn. cbn [Nat.add].
    by rewrite Hv, Hlrt, Hlt.
  - intros Heq.
    rewrite <- (dynamic_info_record_firstn 20 raw1) by lia.
    rewrite <- (dynamic_info_record_firstn 20 raw2) by lia.
    by rewrite Heq.
Qed.

Lemma record_determined_by_first_20_bytes_witness :
  parse _DYNAMIC_INFO_STRUCT (sample_blob Byte.x64 Byte.x00)
  = parse _DYNAMIC_INFO_STRUCT
      (firstn 20 (sample_blob Byte.x64 Byte.x00) ++ repeat Byte.xff 10).
Proof.
  apply (record_determined_by_first_20_bytes
           (sample_blob Byte.x64 Byte.x00)
           (firstn 20 (sample_blob Byte.x64 Byte.x00) ++ repeat Byte.xff 10)).
  - vm_compute. lia.
  - vm_compute. lia.
  - reflexivity.
Defined.

Lemma process_task_decoded key registry_type task_guids sub_key v :
  GetValue sub_key "DynamicInfo" = Some v ->
  length (raw_data v) = 28%nat ->
  forall w,
    process_task key registry_type task_guids sub_key w
    = (Returned tt,
       mkWorld
         (produced w
            ++ decoded_events key registry_type task_guids sub_key
                 (field_at 4 8 (raw_data v)) (field_at 12 8 (raw_data v)))
         (logged w)).
Proof.
  intros Hv Hlen w. rewrite process_task_writes.
  unfold task_events, task_warnings.
  rewrite Hv, !decide_True by exact Hlen. by rewrite app_nil_r.
Qed.

Lemma filter_labelled_decoded_events label key registry_type task_guids sub_key lrt lt :
  filter (labelled label)
    (decoded_events key registry_type task_guids sub_key lrt lt)
  = (if decide ("Last registered time" = label)
     then time_events "Last registered time" lrt task_guids sub_key else [])
    ++ (if decide ("Launch time" = label)
        then time_events "Launch time" lt task_guids sub_key else []).
Proof.
  unfold decoded_events.
  rewrite filter_cons, filter_app, !filter_labelled_time_events.
  reflexivity.
Qed.

Lemma time_events_nil label t task_guids sub_key :
  time_events label t task_guids sub_key = [] <-> t = 0%Z.
Proof.
  rewrite time_events_nonzero. by destruct (decide (t = 0%Z)).
Qed.

(** X4. For a task sub key whose DynamicInfo value holds 28 bytes, the loop
    body leaves out the "Last registered time" event exactly when the eight
    bytes at [4,12) of the value are all zero, and the "Launch time" event
    exactly when the eight bytes at [12,20) are all zero. *)
Theorem time_event_left_out_iff_zero_bytes
    key registry_type task_guids sub_key v :
  GetValue sub_key "DynamicInfo" = Some v ->
  length (raw_data v) = 28%nat ->
  exists evs,
    (forall w,
       process_task key registry_type task_guids sub_key w
       = (Returned tt, mkWorld (produced w ++ evs) (logged w)))
    /\ (filter (labelled "Last registered time") evs = []
        <-> firstn 8 (skipn 4 (raw_data v)) = repeat Byte.x00 8)
    /\ (filter (labelled "Launch time") evs = []
        <-> firstn 8 (skipn 12 (raw_data v)) = repeat Byte.x00 8).
Proof.
  intros Hv Hlen. eexists. split; [apply (process_task_decoded _ _ _ _ _ Hv Hlen)|].
  rewrite !filter_labelled_decoded_events.
  rewrite (decide_True _ _ (eq_refl "Last registered time")).
  rewrite (decide_True _ _ (eq_refl "Launch time")).
  rewrite decide_False by discriminate.
  rewrite (decide_False (P := "Last registered time" = "Launch time")) by discriminate.
  rewrite app_nil_r. cbn [app].
  rewrite !time_events_nil.
  split; apply field_at_zero; lia.
Qed.

Lemma time_event_left_out_iff_zero_bytes_witness :
  exists evs,
    (forall w,
       process_task sample_cache (Some "SOFTWARE") ∅ sample_task w
       = (Returned tt, mkWorld (produced w ++ evs) (logged w)))
    /\ (filter (labelled "Last registered time") evs = []
        <-> firstn 8 (skipn 4 (raw_data sample_dynamic_info))
            = repeat Byte.x00 8)
    /\ (filter (labelled "Launch time") evs = []
        <-> firstn 8 (skipn 12 (raw_data sample_dynamic_info))
            = repeat Byte.x00 8).
Proof.
  exact (time_event_left_out_iff_zero_bytes sample_cache (Some "SOFTWARE") ∅
           sample_task sample_dynamic_info eq_refl eq_refl).
Defined.

(** X5. Whenever the loop body produces events for a task sub key, the
    first is the key-visit event, then comes the "Last registered time"
    event if there is one, then the "Launch time" event if there is one:
    at most three events, and nothing is logged. When the sub key has no
    DynamicInfo value of 28 bytes the body produces no event at all. *)
Theorem task_events_in_fixed_order key registry_type task_guids sub_key :
  exists evs msgs,
    (forall w,
       process_task key registry_type task_guids sub_key w
       = (Returned tt, mkWorld (produced w ++ evs) (logged w ++ msgs)))
    /\ (has_dynamic_info sub_key ->
        evs
        = WindowsRegistryEvent (last_written_timestamp key) (path key)
            (<["Task: " +:+ resolved_name task_guids sub_key
               := "[ID: " +:+ name sub_key +:+ "]"]> ∅)
            (offset key) registry_type
            :: filter (labelled "Last registered time") evs
            ++ filter (labelled "Launch time") evs
        /\ (length (filter (labelled "Last registered time") evs) <= 1)%nat
        /\ (length (filter (labelled "Launch time") evs) <= 1)%nat
        /\ msgs = [])
    /\ (~ has_dynamic_info sub_key -> evs = []).
Proof.
  exists (task_events key registry_type task_guids sub_key),
    (task_warnings sub_key).
  split; [apply process_task_writes|].
  unfold task_events, task_warnings, has_dynamic_info.
  destruct (GetValue sub_key "DynamicInfo") as [v|]; [|by split].
  destruct (decide (length (raw_data v) = 28%nat)) as [Hlen|Hlen]; [|by split].
  split; [|done]. intros _.
  rewrite !filter_labelled_decoded_events.
  rewrite (decide_True _ _ (eq_refl "Last registered time")).
  rewrite (decide_True _ _ (eq_refl "Launch time")).
  rewrite decide_False by discriminate.
  rewrite (decide_False (P := "Last registered time" = "Launch time")) by discriminate.
  rewrite app_nil_r. cbn [app].
  repeat split.
  - unfold time_events. destruct (truthy _); cbn; lia.
  - unfold time_events. destruct (truthy _); cbn; lia.
Qed.

(** X6. The container's attributes and the registry type never reach the
    timestamped events or the log: for two container keys and two registry
    types, the loop body run on the same task sub key with the same
    dictionary produces the same timestamped events, as many events in
    all, and logs the same. *)
Theorem timestamped_events_ignore_container
    key1 key2 registry_type1 registry_type2 task_guids sub_key :
  exists evs1 evs2 msgs,
    (forall w,
       process_task key1 registry_type1 task_guids sub_key w
       = (Returned tt, mkWorld (produced w ++ evs1) (logged w ++ msgs)))
    /\ (forall w,
          process_task key2 registry_type2 task_guids sub_key w
          = (Returned tt, mkWorld (produced w ++ evs2) (logged w ++ msgs)))
    /\ filter is_timestamped evs1 = filter is_timestamped evs2
    /\ length evs1 = length evs2.
Proof.
  exists (task_events key1 registry_type1 task_guids sub_key),
    (task_events key2 registry_type2 task_guids sub_key),
    (task_warnings sub_key).
  split; [apply process_task_writes|]. split; [apply process_task_writes|].
  unfold task_events.
  destruct (GetValue sub_key "DynamicInfo") as [v|]; [|done].
  destruct (decide (length (raw_data v) = 28%nat)); [|done].
  unfold decoded_events. rewrite !filter_cons. cbn [is_timestamped].
  split; [|by cbn [length]].
  destruct (decide False); done.
Qed.

(** ** Joining the Tree and the Tasks keys *)

Lemma in_id_pairs tree_key k v :
  In (k, v) (id_pairs tree_key)
  <-> exists child,
        In child (GetSubkeys tree_key)
        /\ descends_from child k
        /\ GetValue k "Id" = Some v.
Proof.
  unfold id_pairs. rewrite in_flat_map.
  split; intros (child & Hchild & H); exists child;
    (split; [exact Hchild|]); by apply in_GetIdValue.
Qed.

Lemma task_guids_of_Some tree_key d n :
  task_guids_of tree_key !! d = Some n ->
  exists k v,
    In (k, v) (id_pairs tree_key)
    /\ length (raw_data v) = 78%nat
    /\ dict_key (data v) = d
    /\ name k = n.
Proof.
  rewrite task_guids_of_lookup.
  destruct (last _) as [[k v]|] eqn:Hlast; [|done].
  intros [= <-]. apply last_Some_elem_of in Hlast.
  apply list_elem_of_filter in Hlast as [[Hkey Hacc] Hin].
  exists k, v. by rewrite <- list_elem_of_In.
Qed.

Lemma task_guids_of_unique tree_key k v d :
  In (k, v) (id_pairs tree_key) ->
  length (raw_data v) = 78%nat ->
  dict_key (data v) = d ->
  (forall k' v',
     In (k', v') (id_pairs tree_key) ->
     length (raw_data v') = 78%nat ->
     dict_key (data v') = d ->
     name k' = name k) ->
  task_guids_of tree_key !! d = Some (name k).
Proof.
  intros Hin Hlen Hkey Huniq. rewrite task_guids_of_lookup.
  destruct (last _) as [[k' v']|] eqn:Hlast.
  - apply last_Some_elem_of, list_elem_of_filter in Hlast as [[Hkey' Hacc] Hin'].
    cbn. f_equal. apply (Huniq k' v'); [by apply list_elem_of_In|done..].
  - apply last_None in Hlast.
    assert ((k, v) ∈ filter (fun p => guid_key p = d /\ accepted p)
                       (id_pairs tree_key)) as Hmem.
    { apply list_elem_of_filter. split; [by split|by apply list_elem_of_In]. }
    rewrite Hlast in Hmem. by apply not_elem_of_nil in Hmem.
Qed.

(** X7. In a run of [GetEntries] over a container with both sub keys, every
    event belongs to a sub key of Tasks and shows it either under its own
    name or under the name of a key at some depth below a sub key of Tree
    that carries an Id value of 78 raw bytes whose data is the name of the
    task sub key. The run returns normally, or ends in TypeError without
    any event when an accepted Id value has unhashable data. *)
Theorem displayed_names_come_from_tree key registry_type tasks_key tree_key :
  GetSubkey key "Tasks" = Some tasks_key ->
  GetSubkey key "Tree" = Some tree_key ->
  exists result evs msgs,
    (forall w,
       GetEntries key registry_type w
       = (result, mkWorld (produced w ++ evs) (logged w ++ msgs)))
    /\ (~ Exists unhashable_id (id_pairs tree_key) -> result = Returned tt)
    /\ (Exists unhashable_id (id_pairs tree_key) ->
        result = Raised TypeError /\ evs = [])
    /\ Forall
         (fun e =>
            exists sub_key n,
              In sub_key (GetSubkeys tasks_key)
              /\ displays n (name sub_key) e
              /\ (n = name sub_key
                  \/ exists child k v,
                       In child (GetSubkeys tree_key)
                       /\ descends_from child k
                       /\ GetValue k "Id" = Some v
                       /\ length (raw_data v) = 78%nat
                       /\ dict_key (data v) = PyUnicode (name sub_key)
                       /\ n = name k))
         evs.
Proof.
  intros Htasks Htree.
  destruct (decide (Exists unhashable_id (id_pairs tree_key))) as [H|H].
  { eexists _, [], _. split.
    { intros w. rewrite (GetEntries_raises _ _ _ _ _ Htasks Htree H).
      by rewrite app_nil_r. }
    split; [by intros Hn|]. split; [done|constructor]. }
  eexists _, _, _.
  split; [apply (GetEntries_writes _ _ _ _ Htasks Htree H)|].
  split; [done|]. split; [done|].
  apply Forall_flat_map, Forall_forall. intros sub_key Hsub.
  apply list_elem_of_In in Hsub.
  pose proof (Forall_displays_task_events key registry_type
                (task_guids_of tree_key) sub_key) as Hdisp.
  eapply Forall_impl; [exact Hdisp|]. intros e He. cbn beta in He.
  exists sub_key, (resolved_name (task_guids_of tree_key) sub_key).
  split; [exact Hsub|]. split; [exact He|].
  unfold resolved_name. cbn [dict_key].
  destruct (task_guids_of tree_key !! PyUnicode (name sub_key)) as [n|] eqn:Hn;
    [|by left].
  right. apply task_guids_of_Some in Hn as (k & v & Hin & Hlen & Hkey & <-).
  apply in_id_pairs in Hin as (child & Hchild & Hdesc & Hv).
  by exists child, k, v.
Qed.

Lemma displayed_names_come_from_tree_witness :
  exists evs msgs,
    (forall w,
       GetEntries sample_cache (Some "SOFTWARE") w
       = (Returned tt, mkWorld (produced w ++ evs) (logged w ++ msgs)))
    /\ Forall
         (fun e =>
            exists sub_key n,
              In sub_key (GetSubkeys sample_tasks)
              /\ displays n (name sub_key) e
              /\ (n = name sub_key
                  \/ exists child k v,
                       In child (GetSubkeys sample_tree)
                       /\ descends_from child k
                       /\ GetValue k "Id" = Some v
                       /\ length (raw_data v) = 78%nat
                       /\ dict_key (data v) = PyUnicode (name sub_key)
                       /\ n = name k))
         evs.
Proof.
  destruct (displayed_names_come_from_tree sample_cache (Some "SOFTWARE")
              sample_tasks sample_tree eq_refl eq_refl)
    as (result & evs & msgs & Hrun & Hok & _ & Hall).
  rewrite Hok in Hrun by (apply (bool_decide_eq_false_1 _); reflexivity).
  by exists evs, msgs.
Defined.

(** X8. When no accepted Id value of the traversal has unhashable data, a
    key below a sub key of Tree carries an Id value of 78 raw bytes whose
    data is the name of a task sub key, and every other such key has the
    same name, the dictionary of the first loop maps the task's
    name to that key's name, and the loop body run with it shows the task
    under that name: with a DynamicInfo value of 28 bytes the first event
    is the key-visit event with the text "Task: " followed by the key's
    name. *)
Theorem task_shown_under_tree_name
    key registry_type tree_key sub_key child k v dynamic_info_value :
  ~ Exists unhashable_id (id_pairs tree_key) ->
  In child (GetSubkeys tree_key) ->
  descends_from child k ->
  GetValue k "Id" = Some v ->
  length (raw_data v) = 78%nat ->
  dict_key (data v) = PyUnicode (name sub_key) ->
  (forall k' v',
     In (k', v') (id_pairs tree_key) ->
     length (raw_data v') = 78%nat ->
     dict_key (data v') = PyUnicode (name sub_key) ->
     name k' = name k) ->
  GetValue sub_key "DynamicInfo" = Some dynamic_info_value ->
  length (raw_data dynamic_info_value) = 28%nat ->
  exists task_guids evs,
    (forall w, fst (build_task_guids tree_key w) = Returned task_guids)
    /\ task_guids !! PyUnicode (name sub_key) = Some (name k)
    /\ (forall w,
          process_task key registry_type task_guids sub_key w
          = (Returned tt,
             mkWorld
               (produced w
                  ++ WindowsRegistryEvent (last_written_timestamp key)
                       (path key)
                       (<["Task: " +:+ name k
                          := "[ID: " +:+ name sub_key +:+ "]"]> ∅)
                       (offset key) registry_type
                  :: evs)
               (logged w)))
    /\ Forall (displays (name k) (name sub_key)) evs.
Proof.
  intros Hok Hchild Hdesc Hv Hlen Hkey Huniq Hdi Hdilen.
  assert (In (k, v) (id_pairs tree_key)) as Hin.
  { apply in_id_pairs. by exists child. }
  pose proof (task_guids_of_unique tree_key k v _ Hin Hlen Hkey Huniq) as Hlook.
  assert (resolved_name (task_guids_of tree_key) sub_key = name k) as Hname.
  { unfold resolved_name. cbn [dict_key]. by rewrite Hlook. }
  exists (task_guids_of tree_key). eexists.
  split; [intros w; by rewrite (build_task_guids_writes _ Hok)|].
  split; [exact Hlook|]. split.
  - intros w. rewrite (process_task_decoded _ _ _ _ _ Hdi Hdilen).
    unfold decoded_events, key_visit_event. rewrite Hname. reflexivity.
  - rewrite <- Hname.
    apply Forall_app; split; apply Forall_displays_time_events.
Qed.

Lemma task_shown_under_tree_name_witness :
  exists task_guids evs,
    (forall w, fst (build_task_guids sample_tree w) = Returned task_guids)
    /\ task_guids !! PyUnicode sample_guid = Some "MyTask"
    /\ (forall w,
          process_task sample_cache (Some "SOFTWARE") task_guids sample_task w
          = (Returned tt,
             mkWorld
               (produced w
                  ++ WindowsRegistryEvent 777
                       "\Microsoft\Windows NT\CurrentVersion\Schedule\TaskCache"
                       (<["Task: MyTask"
                          := "[ID: {ABCDEF01-2345-6789-ABCD-EF0123456789}]"]> ∅)
                       4096 (Some "SOFTWARE")
                  :: evs)
               (logged w)))
    /\ Forall (displays "MyTask" sample_guid) evs.
Proof.
  apply (task_shown_under_tree_name sample_cache (Some "SOFTWARE") sample_tree
           sample_task
           (mkKey "Microsoft" "Microsoft" 0 0 []
              [sample_leaf "MyTask" [sample_id_value];
               sample_leaf "Broken" [sample_short_id_value]])
           (sample_leaf "MyTask" [sample_id_value])
           sample_id_value sample_dynamic_info).
  - apply (bool_decide_eq_false_1 _). reflexivity.
  - left. reflexivity.
  - eapply descends_below; [left; reflexivity | apply descends_here].
  - reflexivity.
  - reflexivity.
  - reflexivity.
  - intros k' v' [H|[H|[]]] Hlen Hkey.
    + by injection H as <- <-.
    + injection H as <- <-. vm_compute in Hlen. lia.
  - reflexivity.
  - reflexivity.
Defined.

(** ** The log of a run *)

Lemma map_const_repeat {A B} (c : B) (l : list A) :
  map (fun _ => c) l = repeat c (length l).
Proof. induction l as [|x l IH]; cbn; [done|]. by rewrite IH. Qed.

Lemma task_warnings_wrong_sized l :
  flat_map task_warnings l
  = repeat dynamic_info_warning (length (filter wrong_sized_dynamic_info l)).
Proof.
  induction l as [|sub_key l IH]; cbn [flat_map]; [done|].
  rewrite filter_cons, IH.
  unfold task_warnings.
  destruct (decide (wrong_sized_dynamic_info sub_key)) as [H|H];
    unfold wrong_sized_dynamic_info in H;
    destruct (GetValue sub_key "DynamicInfo") as [v|]; try done.
  - by rewrite decide_False by exact H.
  - destruct (decide (length (raw_data v) = 28%nat)); [done|]. by destruct H.
Qed.

(** X9. A run of [GetEntries] over a container with both sub keys adds to
    the log, first, one "unsupported Id value data size" warning for each
    Id value whose raw data is not 78 bytes long among those the traversal
    meets before the first accepted Id value with unhashable data (among
    all of them when there is none). When there is none it then adds one
    "unsupported DynamicInfo value data size" warning for each sub key of
    Tasks whose DynamicInfo value is not 28 bytes long; when there is one
    the run has ended in TypeError and adds no more. Nothing else is
    logged. *)
Theorem GetEntries_log_accounting key registry_type tasks_key tree_key w :
  GetSubkey key "Tasks" = Some tasks_key ->
  GetSubkey key "Tree" = Some tree_key ->
  logged (snd (GetEntries key registry_type w))
  = logged w
      ++ repeat "[winreg_task_cache] unsupported Id value data size."
           (length
              (filter (fun p => length (raw_data p.2) <> 78%nat)
                 (hashable_prefix (id_pairs tree_key))))
      ++ (if decide (Exists unhashable_id (id_pairs tree_key)) then []
          else
            repeat "[winreg_task_cache] unsupported DynamicInfo value data size."
              (length
                 (filter wrong_sized_dynamic_info (GetSubkeys tasks_key)))).
Proof.
  intros Htasks Htree.
  destruct (decide (Exists unhashable_id (id_pairs tree_key))) as [H|H].
  - rewrite (GetEntries_raises _ _ _ _ _ Htasks Htree H). cbn [snd logged].
    by rewrite id_warnings_rejected, map_const_repeat, app_nil_r.
  - rewrite (GetEntries_writes _ _ _ _ Htasks Htree H). cbn [snd logged].
    rewrite (hashable_prefix_all _ H).
    by rewrite id_warnings_rejected, map_const_repeat, task_warnings_wrong_sized.
Qed.

Lemma GetEntries_log_accounting_witness :
  logged (snd (GetEntries sample_cache (Some "SOFTWARE") empty_world))
  = ["[winreg_task_cache] unsupported Id value data size.";
     "[winreg_task_cache] unsupported DynamicInfo value data size."]
  /\ logged (snd (GetEntries sample_list_cache (Some "SOFTWARE") empty_world))
     = [].
Proof.
  split.
  - exact (GetEntries_log_accounting sample_cache (Some "SOFTWARE")
             sample_tasks sample_tree empty_world eq_refl eq_refl).
  - exact (GetEntries_log_accounting sample_list_cache (Some "SOFTWARE")
             sample_tasks sample_list_tree empty_world eq_refl eq_refl).
Defined.

(** ** Sub trees *)

(** X10. The pairs [_GetIdValue] yields for a key at some depth below a
    given key appear, together and in the same order, among the pairs it
    yields for the given key. *)
Theorem GetIdValue_of_descendant_is_segment key k :
  descends_from key k ->
  exists before after,
    _GetIdValue key = before ++ _GetIdValue k ++ after.
Proof.
  induction 1 as [root|root child k Hchild _ (before & after & IH)].
  - exists [], []. by rewrite app_nil_r.
  - apply in_split in Hchild as (l1 & l2 & Hsplit).
    rewrite (GetIdValue_unfold root), Hsplit, flat_map_app.
    cbn [flat_map]. rewrite IH.
    exists (option_list (id_pair root) ++ flat_map _GetIdValue l1 ++ before),
      (after ++ flat_map _GetIdValue l2).
    by rewrite <- !app_assoc.
Qed.

Lemma GetIdValue_of_descendant_is_segment_witness :
  exists before after,
    _GetIdValue sample_tree
    = before
        ++ _GetIdValue (sample_leaf "Broken" [sample_short_id_value])
        ++ after.
Proof.
  apply (GetIdValue_of_descendant_is_segment sample_tree
           (sample_leaf "Broken" [sample_short_id_value])).
  eapply descends_below; [left; reflexivity|].
  eapply descends_below; [right; left; reflexivity|].
  apply descends_here.
Defined.
